(** * Inference pipelines of the pest/disease detection backend

    A shallow embedding of [ml_models/disease_predictor.py] and
    [ml_models/pest_predictor.py]: the image preprocessor, the result
    composer (argmax, label lookup, advisory lookup) and the command line
    entry point of each script, followed by the properties the written
    specification states about them.  The training script
    [ml_models/train_model.py] is embedded as well, as the sequence of
    prints and library calls it makes.

    Conventions of the embedding.
    - Python exceptions are values of [exn]; a computation that may raise
      returns [res A]; a computation that may also print returns [IO A],
      which threads the lines written to standard output.
    - TensorFlow, OpenCV and the file system are capabilities of a [World].
      A failure inside one of them is an ordinary Python [Exception]
      (constructor [LibraryError]).  A network that returns has first
      written its progress display to standard output; a network that fails
      has written nothing.  OpenCV is taken to answer every call.
    - Pixels are unsigned bytes; the input tensor holds IEEE binary32 values
      ([spec_float] at precision 24), computed with the library's correctly
      rounded division.
    - A probability is the rational number denoted by the float the model
      returns.  Finite floats compare exactly as the rationals they denote
      and the widening done by [float(...)] keeps the denoted number, so the
      argmax scan and the reported confidence are the same on both sides.
    - Strings are byte strings; [str.lower], [str.upper] act on the ASCII
      letters, which is all that the labels of the two scripts contain.
      Statements about arbitrary labels that depend on [str.upper] are made
      for ASCII labels. *)

From Stdlib Require Import ZArith QArith Qabs Floats.SpecFloat Ascii String.
From Stdlib Require Strings.Byte.
From Stdlib Require Import Lqa DecimalString.
From stdpp Require Import gmap strings list.

Local Open Scope string_scope.
Local Open Scope list_scope.

(** ** Python values *)

(** The exception classes that the two scripts raise or catch.  Every
    constructor but [SystemExit] is a subclass of [Exception]. *)
Inductive exn : Type :=
| FileNotFoundError (msg : string)
| ValueError (msg : string)
| IndexError (msg : string)
| AttributeError (msg : string)
| LibraryError (msg : string)
| Exception (msg : string)
| SystemExit (code : Z).

(** [str(e)] for an instance of [Exception] built from one message.  The
    scripts never take [str] of a [SystemExit]. *)
Definition str (e : exn) : string :=
  match e with
  | FileNotFoundError m | ValueError m | IndexError m
  | AttributeError m | LibraryError m | Exception m => m
  | SystemExit _ => ""
  end.

(** [isinstance(e, Exception)]: what [except Exception] catches. *)
Definition is_Exception (e : exn) : bool :=
  match e with SystemExit _ => false | _ => true end.

Inductive res (A : Type) : Type :=
| Ret (a : A)
| Raise (e : exn).
Arguments Ret {A} a.
Arguments Raise {A} e.

Definition res_bind {A B} (m : res A) (k : A → res B) : res B :=
  match m with Ret a => k a | Raise e => Raise e end.

(** [try: body except Exception as e: handler(e)] *)
Definition try_except {A} (body : res A) (handler : exn → res A) : res A :=
  match body with
  | Ret a => Ret a
  | Raise e => if is_Exception e then handler e else Raise e
  end.

(** An external call: either a value or the message of the exception the
    library raised. *)
Definition external (A : Type) : Type := (string + A)%type.

Definition call {A} (r : external A) : res A :=
  match r with inr a => Ret a | inl msg => Raise (LibraryError msg) end.

Declare Scope res_scope.
Delimit Scope res_scope with res.
Notation "x <- m ;; k" := (res_bind m (λ x, k))
  (at level 100, m at next level, right associativity) : res_scope.

(** [xs[i]] on a Python list, for [i ≥ 0]. *)
Definition py_index {A} (xs : list A) (i : nat) : res A :=
  match xs !! i with
  | Some x => Ret x
  | None => Raise (IndexError "list index out of range")
  end.

(** [str(n)] for a natural number. *)
Definition str_of_nat (n : nat) : string :=
  NilZero.string_of_uint (Nat.to_uint n).

(** [a[i]] on the first axis of a NumPy array, for [i ≥ 0]. *)
Definition np_index {A} (a : list A) (i : nat) : res A :=
  match a !! i with
  | Some x => Ret x
  | None => Raise (IndexError
                     ("index " +:+ str_of_nat i +:+
                      " is out of bounds for axis 0 with size " +:+
                      str_of_nat (length a)))
  end.

(** ** Strings *)

Definition ascii_lower (c : ascii) : ascii :=
  let n := N_of_ascii c in
  if ((65 <=? n) && (n <=? 90))%N then ascii_of_N (n + 32) else c.

Definition ascii_upper (c : ascii) : ascii :=
  let n := N_of_ascii c in
  if ((97 <=? n) && (n <=? 122))%N then ascii_of_N (n - 32) else c.

Fixpoint str_map (f : ascii → ascii) (s : string) : string :=
  match s with
  | EmptyString => EmptyString
  | String c s' => String (f c) (str_map f s')
  end.

(** [s.lower()] and [s.upper()] *)
Definition lower (s : string) : string := str_map ascii_lower s.
Definition upper (s : string) : string := str_map ascii_upper s.

(** [s.replace(old, new)] for one-character [old] and [new]. *)
Definition replace (old new : ascii) (s : string) : string :=
  str_map (λ c, if Ascii.eqb c old then new else c) s.

(** [needle in hay] *)
Fixpoint contains (needle hay : string) : bool :=
  String.prefix needle hay ||
  match hay with
  | EmptyString => false
  | String _ hay' => contains needle hay'
  end.

(** ** Standard output *)

(** The values handed to [json.dumps]. *)
#[local] Set Warnings "-register-all".
Inductive json : Type :=
| JString (s : string)
| JNumber (q : Q)
| JObject (fields : list (string * json)).
#[local] Set Warnings "register-all".

(** One call of [print]: plain text, or the serialisation of a JSON value. *)
Inductive line : Type :=
| Text (s : string)
| Json (j : json).

Definition IO (A : Type) : Type := list line → list line * res A.

Definition io_ret {A} (a : A) : IO A := λ out, (out, Ret a).
Definition io_raise {A} (e : exn) : IO A := λ out, (out, Raise e).
Definition io_lift {A} (r : res A) : IO A := λ out, (out, r).
Definition print (l : line) : IO unit := λ out, (out ++ [l], Ret tt).

Definition io_bind {A B} (m : IO A) (k : A → IO B) : IO B :=
  λ out, match m out with
         | (out', Ret a) => k a out'
         | (out', Raise e) => (out', Raise e)
         end.

Definition io_try_except {A} (body : IO A) (handler : exn → IO A) : IO A :=
  λ out, match body out with
         | (out', Ret a) => (out', Ret a)
         | (out', Raise e) =>
             if is_Exception e then handler e out' else (out', Raise e)
         end.

Declare Scope io_scope.
Delimit Scope io_scope with io.
Notation "x <- m ;; k" := (io_bind m (λ x, k))
  (at level 100, m at next level, right associativity) : io_scope.

(** What the operating system sees of a finished process: the lines on
    standard output, the exit status, and the exception whose traceback the
    interpreter wrote to standard error, if one went unhandled. *)
Record process : Type := {
  stdout : list line;
  exit_status : Z;
  traceback : option exn
}.

(** Run a script body: a normal end or an uncaught [SystemExit(c)] fixes the
    exit status; any other uncaught exception ends the interpreter with
    status 1 and a traceback. *)
Definition run (body : IO unit) : process :=
  match body [] with
  | (out, Ret _) => {| stdout := out; exit_status := 0; traceback := None |}
  | (out, Raise (SystemExit c)) =>
      {| stdout := out; exit_status := c; traceback := None |}
  | (out, Raise e) => {| stdout := out; exit_status := 1; traceback := Some e |}
  end.

(** ** Arrays *)

(** [np.argmax(v)] on a one-dimensional array: a left-to-right scan that
    keeps the first largest element.  [rest] is what remains to be read, [i]
    the index of its head, [best] the largest value read so far and [best_i]
    the index where it was read.  The position moves only when the element
    read is strictly greater than [best]. *)
Fixpoint argmax_scan (rest : list Q) (i : nat) (best : Q) (best_i : nat) : nat :=
  match rest with
  | [] => best_i
  | x :: rest' =>
      if Qle_bool x best
      then argmax_scan rest' (S i) best best_i
      else argmax_scan rest' (S i) x i
  end.

Definition np_argmax (v : list Q) : res nat :=
  match v with
  | [] => Raise (ValueError "attempt to get argmax of an empty sequence")
  | x :: rest => Ret (argmax_scan rest 1 x 0)
  end.

(** ** Images and tensors *)

Definition uint8 : Type := Byte.byte.

(** One pixel of a three-channel 8-bit image, channels in storage order. *)
Record pixel : Type := { ch0 : uint8; ch1 : uint8; ch2 : uint8 }.

(** A decoded image: rows of pixels. *)
Definition image : Type := list (list pixel).

(** binary32 *)
Definition prec : Z := 24.
Definition emax : Z := 128.
Definition float32 : Type := spec_float.

(** The binary32 value of a natural number below 2^24 (exact). *)
Definition float32_of_N (n : N) : float32 :=
  match n with
  | N0 => S754_zero false
  | Npos p => binary_normalize prec emax (Zpos p) 0 false
  end.

(** A batch of images as the model reads it: batch, rows, columns, channels. *)
Definition tensor : Type := list (list (list (list float32))).

(** [cv2.cvtColor(img, cv2.COLOR_BGR2RGB)]: the first and third channel
    change places. *)
Definition cvtColor_BGR2RGB (img : image) : image :=
  map (map (λ p, {| ch0 := ch2 p; ch1 := ch1 p; ch2 := ch0 p |})) img.

(** One element of [img.astype('float32') / 255.0]. *)
Definition div255 (b : uint8) : float32 :=
  SFdiv prec emax (float32_of_N (Byte.to_N b)) (float32_of_N 255).

(** [img.astype('float32') / 255.0] *)
Definition normalize (img : image) : list (list (list float32)) :=
  map (map (λ p, [div255 (ch0 p); div255 (ch1 p); div255 (ch2 p)])) img.

(** [np.expand_dims(img, axis=0)] *)
Definition expand_dims0 {A} (a : A) : list A := [a].

(** A loaded network: [model.predict(x)] fails inside the framework, or it
    returns one probability vector per image of the batch after writing
    its progress display, some pieces of text, to standard output. *)
Definition Model : Type := tensor → external (list string * list (list Q)).

(** [model.predict(x)] as a computation of the script. *)
Definition model_predict (m : Model) (x : tensor) : IO (list (list Q)) :=
  λ out, match m x with
         | inl msg => (out, Raise (LibraryError msg))
         | inr (progress, predictions) =>
             (out ++ map Text progress, Ret predictions)
         end.

(** The capabilities the scripts take from their environment. *)
Record World : Type := {
  (** [os.path.exists] *)
  os_path_exists : string → bool;
  (** [tensorflow.keras.models.load_model] *)
  keras_load_model : string → external Model;
  (** [cv2.imread]: [None] when the file cannot be read or decoded. *)
  cv2_imread : string → option image;
  (** [cv2.resize(img, (width, height))] *)
  cv2_resize : image → nat * nat → image
}.

(** [preprocess_image], the same method body in both predictors. *)
Definition preprocess_image (w : World) (image_path : string) : res tensor :=
  try_except
    (img <- match cv2_imread w image_path with
            | None => Raise (ValueError "Could not load image")
            | Some img => Ret img
            end ;;
     let img := cvtColor_BGR2RGB img in
     let img := cv2_resize w img (224, 224) in
     let img := normalize img in
     let img := expand_dims0 img in
     Ret img)%res
    (λ e, Raise (ValueError ("Error preprocessing image: " +:+ str e))).

(** ** Responses *)

(** The [pesticide] entry of an advisory record. *)
Record Pesticide : Type := {
  name : string;
  dosage : string;
  type_ : string
}.

(** A value of the advisory tables [disease_info] and [pest_info]. *)
Record Advisory : Type := {
  description : string;
  treatment : string;
  pesticide : Pesticide
}.

(** The dictionary returned by [predict]. *)
Record Prediction : Type := {
  detected_class : string;
  confidence : Q;
  r_description : string;
  r_treatment : string;
  r_pesticide : Pesticide
}.

Definition pesticide_json (p : Pesticide) : json :=
  JObject [("name", JString (name p)); ("dosage", JString (dosage p));
           ("type", JString (type_ p))].

(** The argument of [json.dumps(result)]. *)
Definition result_json (r : Prediction) : json :=
  JObject [("detected_class", JString (detected_class r));
           ("confidence", JNumber (confidence r));
           ("description", JString (r_description r));
           ("treatment", JString (r_treatment r));
           ("pesticide", pesticide_json (r_pesticide r))].

(** The argument of [json.dumps({'error': msg})]. *)
Definition error_json (msg : string) : json :=
  JObject [("error", JString msg)].

(** ** The disease pipeline ([disease_predictor.py]) *)

Module Disease.

Record DiseasePredictor : Type := {
  model_path : string;
  model : option Model;
  class_names : list string;
  disease_info : gmap string Advisory
}.

(** The list assigned to [self.class_names] in [__init__]. *)
Definition class_names_literal : list string := [
  "Apple_scab"; "Apple_Black_rot"; "Apple_Cedar_apple_rust"; "Apple_healthy";
  "Blueberry_healthy"; "Cherry_Powdery_mildew"; "Cherry_healthy";
  "Corn_Cercospora_leaf_spot"; "Corn_Common_rust"; "Corn_Northern_Leaf_Blight"; "Corn_healthy";
  "Grape_Black_rot"; "Grape_Esca"; "Grape_Leaf_blight"; "Grape_healthy";
  "Orange_Haunglongbing"; "Peach_Bacterial_spot"; "Peach_healthy";
  "Pepper_Bacterial_spot"; "Pepper_healthy";
  "Potato_Early_blight"; "Potato_Late_blight"; "Potato_healthy";
  "Raspberry_healthy"; "Soybean_healthy";
  "Squash_Powdery_mildew"; "Strawberry_Leaf_scorch"; "Strawberry_healthy";
  "Tomato_Bacterial_spot"; "Tomato_Early_blight"; "Tomato_Late_blight";
  "Tomato_Leaf_Mold"; "Tomato_Septoria_leaf_spot"; "Tomato_Spider_mites";
  "Tomato_Target_Spot"; "Tomato_Yellow_Leaf_Curl_Virus"; "Tomato_mosaic_virus"; "Tomato_healthy"
].

Definition fungicide (n d : string) : Pesticide :=
  {| name := n; dosage := d; type_ := "Fungicide" |}.

(** The dictionary assigned to [self.disease_info] in [__init__]. *)
Definition disease_info_literal : gmap string Advisory := list_to_map [
  ("Apple_scab",
   {| description := "Fungal disease causing dark, scaly lesions on leaves and fruit";
      treatment := "Apply fungicides like Mancozeb or Copper sulfate";
      pesticide := fungicide "Mancozeb" "2-3 g/L" |});
  ("Apple_Black_rot",
   {| description := "Fungal disease causing black cankers on branches and fruit rot";
      treatment := "Prune infected areas and apply Captan or Thiophanate-methyl";
      pesticide := fungicide "Captan" "2-3 g/L" |});
  ("Apple_Cedar_apple_rust",
   {| description := "Fungal disease causing yellow-orange spots on leaves";
      treatment := "Apply Propiconazole or Myclobutanil fungicides";
      pesticide := fungicide "Propiconazole" "1-2 ml/L" |});
  ("Corn_Cercospora_leaf_spot",
   {| description := "Fungal disease causing small rectangular lesions on leaves";
      treatment := "Apply Azoxystrobin or Tebuconazole fungicides";
      pesticide := fungicide "Azoxystrobin" "1-1.5 ml/L" |});
  ("Corn_Common_rust",
   {| description := "Fungal disease causing small oval rust pustules on leaves";
      treatment := "Apply Chlorothalonil or Propiconazole fungicides";
      pesticide := fungicide "Chlorothalonil" "2-3 ml/L" |});
  ("Corn_Northern_Leaf_Blight",
   {| description := "Fungal disease causing large grayish-green lesions on leaves";
      treatment := "Apply Mancozeb or Azoxystrobin fungicides";
      pesticide := fungicide "Mancozeb" "2-3 g/L" |});
  ("Tomato_Early_blight",
   {| description := "Fungal disease causing brown spots with concentric rings on leaves";
      treatment := "Apply Chlorothalonil or Mancozeb fungicides";
      pesticide := fungicide "Chlorothalonil" "2-3 ml/L" |});
  ("Tomato_Late_blight",
   {| description := "Devastating fungal disease causing water-soaked lesions";
      treatment := "Apply Metalaxyl or Copper-based fungicides immediately";
      pesticide := fungicide "Metalaxyl" "2-3 g/L" |});
  ("Tomato_Leaf_Mold",
   {| description := "Fungal disease causing yellow patches on upper leaf surface";
      treatment := "Improve air circulation and apply Chlorothalonil";
      pesticide := fungicide "Chlorothalonil" "2-3 ml/L" |})
].

(** The default handed to [self.disease_info.get]. *)
Definition fallback_record : Advisory :=
  {| description := "Disease detected";
     treatment := "Consult agricultural expert for treatment";
     pesticide := {| name := "General Fungicide"; dosage := "As per label";
                     type_ := "Fungicide" |} |}.

(** The record assigned when the label names a healthy plant. *)
Definition healthy_record : Advisory :=
  {| description := "Plant appears healthy";
     treatment := "Continue regular care and monitoring";
     pesticide := {| name := "No treatment needed"; dosage := "N/A";
                     type_ := "N/A" |} |}.

(** [load_model]; returns [self] with the loaded network stored in it. *)
Definition load_model (w : World) (self : DiseasePredictor) : IO DiseasePredictor :=
  io_try_except
    (if os_path_exists w (model_path self)
     then (m <- io_lift (call (keras_load_model w (model_path self))) ;;
           io_ret {| model_path := model_path self; model := Some m;
                     class_names := class_names self;
                     disease_info := disease_info self |})%io
     else io_raise (FileNotFoundError
                      ("Model file not found: " +:+ model_path self)))
    (λ e, (_ <- print (Text ("Error loading model: " +:+ str e)) ;;
           io_raise e)%io).

(** The attribute assignments of [__init__], before the model is loaded. *)
Definition new (model_path : string) : DiseasePredictor :=
  {| model_path := model_path; model := None;
     class_names := class_names_literal;
     disease_info := disease_info_literal |}.

(** [DiseasePredictor(model_path)] *)
Definition init (w : World) (model_path : string) : IO DiseasePredictor :=
  load_model w (new model_path).

(** [self.disease_info.get(predicted_class, {...})]: the table entry, or
    the default when the key is absent. *)
Definition get_disease_info (self : DiseasePredictor) (predicted_class : string)
  : Advisory :=
  default fallback_record (disease_info self !! predicted_class).

(** The result composer: the statements of [predict] that follow the call
    of the network, from the argmax to the response dictionary. *)
Definition compose (self : DiseasePredictor) (predictions : list (list Q))
  : res Prediction :=
  (row <- np_index predictions 0 ;;
   predicted_class_idx <- np_argmax row ;;
   confidence <- np_index row predicted_class_idx ;;
   predicted_class <- py_index (class_names self) predicted_class_idx ;;
   let info := get_disease_info self predicted_class in
   let info := if contains "healthy" (lower predicted_class)
               then healthy_record else info in
   Ret {| detected_class := predicted_class;
          confidence := confidence;
          r_description := description info;
          r_treatment := treatment info;
          r_pesticide := pesticide info |})%res.

Definition predict (w : World) (self : DiseasePredictor) (image_path : string)
  : IO Prediction :=
  io_try_except
    (processed_image <- io_lift (preprocess_image w image_path) ;;
     m <- io_lift match model self with
                  | Some m => Ret m
                  | None => Raise (AttributeError
                              "'NoneType' object has no attribute 'predict'")
                  end ;;
     predictions <- model_predict m processed_image ;;
     io_lift (compose self predictions))%io
    (λ e, io_raise (Exception ("Prediction error: " +:+ str e))).

Definition usage : string :=
  "Usage: python disease_predictor.py <model_path> <image_path>".

(** The [__main__] block, run on [sys.argv]. *)
Definition main (w : World) (argv : list string) : process :=
  run (io_try_except
         (if negb (length argv =? 3)%nat
          then (_ <- print (Json (error_json usage)) ;;
                io_raise (SystemExit 1))%io
          else (model_path <- io_lift (py_index argv 1) ;;
                image_path <- io_lift (py_index argv 2) ;;
                predictor <- init w model_path ;;
                result <- predict w predictor image_path ;;
                print (Json (result_json result)))%io)
         (λ e, (_ <- print (Json (error_json (str e))) ;;
                io_raise (SystemExit 1))%io)).

End Disease.

(** ** The pest pipeline ([pest_predictor.py]) *)

Module Pest.

Record PestPredictor : Type := {
  model_path : string;
  model : option Model;
  class_names : list string;
  pest_info : gmap string Advisory
}.

(** The list assigned to [self.class_names] in [__init__]. *)
Definition class_names_literal : list string := [
  "aphids"; "armyworm"; "beetle"; "bollworm"; "earthworm";
  "grasshopper"; "mites"; "mosquito"; "sawfly"; "stem_borer"
].

(** The dictionary assigned to [self.pest_info] in [__init__]. *)
Definition pest_info_literal : gmap string Advisory := list_to_map [
  ("aphids",
   {| description := "Small soft-bodied insects that feed on plant sap";
      treatment := "Apply Imidacloprid or use biological control with ladybugs";
      pesticide := {| name := "Imidacloprid"; dosage := "0.5-1 ml/L";
                      type_ := "Systemic Insecticide" |} |});
  ("armyworm",
   {| description := "Caterpillars that feed on leaves and can cause severe defoliation";
      treatment := "Apply Chlorantraniliprole or Spinetoram insecticides";
      pesticide := {| name := "Chlorantraniliprole"; dosage := "150-300 ml/ha";
                      type_ := "Systemic Insecticide" |} |});
  ("beetle",
   {| description := "Hard-bodied insects that chew on leaves and stems";
      treatment := "Apply Cypermethrin or use mechanical removal";
      pesticide := {| name := "Cypermethrin"; dosage := "1-2 ml/L";
                      type_ := "Contact Insecticide" |} |});
  ("bollworm",
   {| description := "Caterpillars that bore into cotton bolls and other fruits";
      treatment := "Apply Emamectin benzoate or Profenofos";
      pesticide := {| name := "Emamectin benzoate"; dosage := "0.5 g/L";
                      type_ := "Systemic Insecticide" |} |});
  ("earthworm",
   {| description := "Beneficial organisms that improve soil health";
      treatment := "No treatment needed - earthworms are beneficial for soil";
      pesticide := {| name := "No treatment needed"; dosage := "N/A";
                      type_ := "Beneficial" |} |});
  ("grasshopper",
   {| description := "Jumping insects that feed on leaves and can cause defoliation";
      treatment := "Apply Carbaryl or use biological control with Nosema locustae";
      pesticide := {| name := "Carbaryl"; dosage := "2-3 g/L";
                      type_ := "Contact Insecticide" |} |});
  ("mites",
   {| description := "Tiny arachnids that cause stippling and yellowing of leaves";
      treatment := "Apply Abamectin or increase humidity around plants";
      pesticide := {| name := "Abamectin"; dosage := "1-2 ml/L";
                      type_ := "Acaricide" |} |});
  ("mosquito",
   {| description := "Flying insects; adults are not harmful to plants";
      treatment := "Control breeding sites and use Bt for larvae";
      pesticide := {| name := "Bacillus thuringiensis"; dosage := "1-2 g/L";
                      type_ := "Biological" |} |});
  ("sawfly",
   {| description := "Wasp-like insects whose larvae feed on leaves";
      treatment := "Apply Spinosad or use biological control";
      pesticide := {| name := "Spinosad"; dosage := "1-2 ml/L";
                      type_ := "Biological Insecticide" |} |});
  ("stem_borer",
   {| description := "Caterpillars that bore into plant stems causing wilting";
      treatment := "Apply Chlorantraniliprole or Cartap hydrochloride";
      pesticide := {| name := "Chlorantraniliprole"; dosage := "150-300 ml/ha";
                      type_ := "Systemic Insecticide" |} |})
].

(** The default handed to [self.pest_info.get]. *)
Definition fallback_record : Advisory :=
  {| description := "Pest detected";
     treatment := "Consult agricultural expert for treatment";
     pesticide := {| name := "General Insecticide"; dosage := "As per label";
                     type_ := "Insecticide" |} |}.

(** [load_model]; returns [self] with the loaded network stored in it. *)
Definition load_model (w : World) (self : PestPredictor) : IO PestPredictor :=
  io_try_except
    (if os_path_exists w (model_path self)
     then (m <- io_lift (call (keras_load_model w (model_path self))) ;;
           io_ret {| model_path := model_path self; model := Some m;
                     class_names := class_names self;
                     pest_info := pest_info self |})%io
     else io_raise (FileNotFoundError
                      ("Model file not found: " +:+ model_path self)))
    (λ e, (_ <- print (Text ("Error loading model: " +:+ str e)) ;;
           io_raise e)%io).

(** The attribute assignments of [__init__], before the model is loaded. *)
Definition new (model_path : string) : PestPredictor :=
  {| model_path := model_path; model := None;
     class_names := class_names_literal;
     pest_info := pest_info_literal |}.

(** [PestPredictor(model_path)] *)
Definition init (w : World) (model_path : string) : IO PestPredictor :=
  load_model w (new model_path).

(** [self.pest_info.get(predicted_class, {...})]: the table entry, or the
    default when the key is absent. *)
Definition get_pest_info (self : PestPredictor) (predicted_class : string)
  : Advisory :=
  default fallback_record (pest_info self !! predicted_class).

(** The result composer: the statements of [predict] that follow the call
    of the network, from the argmax to the response dictionary. *)
Definition compose (self : PestPredictor) (predictions : list (list Q))
  : res Prediction :=
  (row <- np_index predictions 0 ;;
   predicted_class_idx <- np_argmax row ;;
   confidence <- np_index row predicted_class_idx ;;
   predicted_class <- py_index (class_names self) predicted_class_idx ;;
   let info := get_pest_info self predicted_class in
   Ret {| detected_class := replace "_" " " (upper predicted_class);
          confidence := confidence;
          r_description := description info;
          r_treatment := treatment info;
          r_pesticide := pesticide info |})%res.

Definition predict (w : World) (self : PestPredictor) (image_path : string)
  : IO Prediction :=
  io_try_except
    (processed_image <- io_lift (preprocess_image w image_path) ;;
     m <- io_lift match model self with
                  | Some m => Ret m
                  | None => Raise (AttributeError
                              "'NoneType' object has no attribute 'predict'")
                  end ;;
     predictions <- model_predict m processed_image ;;
     io_lift (compose self predictions))%io
    (λ e, io_raise (Exception ("Prediction error: " +:+ str e))).

Definition usage : string :=
  "Usage: python pest_predictor.py <model_path> <image_path>".

(** The [__main__] block, run on [sys.argv]. *)
Definition main (w : World) (argv : list string) : process :=
  run (io_try_except
         (if negb (length argv =? 3)%nat
          then (_ <- print (Json (error_json usage)) ;;
                io_raise (SystemExit 1))%io
          else (model_path <- io_lift (py_index argv 1) ;;
                image_path <- io_lift (py_index argv 2) ;;
                predictor <- init w model_path ;;
                result <- predict w predictor image_path ;;
                print (Json (result_json result)))%io)
         (λ e, (_ <- print (Json (error_json (str e))) ;;
                io_raise (SystemExit 1))%io)).

End Pest.

(** ** The training script ([train_model.py]) *)

Module Trainer.

(** Keyword arguments of a library call, in the order they are written. *)
Inductive kwval : Type :=
| KNat (n : nat)
| KNum (q : Q)
| KBool (b : bool)
| KStr (s : string)
| KSize (height width : nat).

Definition kwargs : Type := list (string * kwval).

(** The layers the script puts into its models. *)
Inductive layer : Type :=
| MobileNetV2 (input_shape : nat * nat * nat) (include_top : bool)
    (weights : string) (trainable training : bool)
| GlobalAveragePooling2D
| Dropout (rate : Q)
| Dense (units : nat) (activation : string)
| Conv2D (filters : nat) (kernel_size : nat * nat) (activation : string)
    (input_shape : option (nat * nat * nat))
| MaxPooling2D (pool_size strides : nat)
| Flatten.

Inductive optimizer : Type :=
| Adam (learning_rate : Q)
| by_name (s : string).

(** A compiled model, described by what the script passes to Keras. *)
Record network : Type := {
  inputs : option (nat * nat * nat);
  layers : list layer;
  optimizer_ : optimizer;
  loss : string;
  metrics : list string
}.

(** A training callback: its class and keyword arguments. *)
Definition callback : Type := (string * kwargs)%type.

(** What the script reads of a directory iterator. *)
Record Generator : Type := {
  samples : nat;
  class_indices : list (string * nat)
}.

(** [history], returned by [model.fit]. *)
Definition History : Type := list (string * list Q).

(** What the script does to its environment, in order of execution:
    - [Print s]: [print(s)];
    - [PrintClassIndices d]: the print of "Class indices: " followed by the
      dictionary [d] as Python formats it;
    - [Input prompt]: [input(prompt)];
    - [Mkdir path]: creation of a directory that may exist already;
    - [FlowFromDirectory], [Build], [Fit], [Save]: the calls of Keras, with
      what the script passes to them. *)
Inductive event : Type :=
| Print (s : string)
| PrintClassIndices (d : list (string * nat))
| Input (prompt : string)
| Mkdir (path : string)
| FlowFromDirectory (datagen : kwargs) (directory : string) (args : kwargs)
| Build (net : network)
| Fit (net : network) (train val : Generator) (args : kwargs)
    (callbacks : list callback)
| Save (net : network) (path : string).

(** The environment of the script: the file system, the terminal and
    Keras.  Each call answers with a value or with the message of the
    exception it raises. *)
Record Env : Type := {
  (** [os.path.exists] *)
  path_exists : string → bool;
  (** [Path(p).mkdir(exist_ok=True)] *)
  mkdir : string → external unit;
  (** [input(prompt)] *)
  input : string → external string;
  (** [flow_from_directory] of an [ImageDataGenerator] with the keyword
      arguments [datagen], on a directory, with further keyword arguments *)
  flow_from_directory : kwargs → string → kwargs → external Generator;
  (** construction and [compile] of a model *)
  build : network → external unit;
  (** [model.fit] *)
  fit : network → Generator → Generator → kwargs → list callback →
        external History;
  (** [model.save] *)
  save : network → string → external unit
}.

(** Computations of the script: they extend the trace and return or raise. *)
Definition T (A : Type) : Type := list event → list event * res A.

Definition ret {A} (a : A) : T A := λ tr, (tr, Ret a).

Definition bind {A B} (m : T A) (k : A → T B) : T B :=
  λ tr, match m tr with
        | (tr', Ret a) => k a tr'
        | (tr', Raise e) => (tr', Raise e)
        end.

(** A call that leaves the event [ev] and answers [r]. *)
Definition perform {A} (ev : event) (r : external A) : T A :=
  λ tr, (tr ++ [ev], call r).

Definition print (s : string) : T unit := perform (Print s) (inr tt).

Declare Scope trainer_scope.
Delimit Scope trainer_scope with T.
Notation "x <- m ;; k" := (bind m (λ x, k))
  (at level 100, m at next level, right associativity) : trainer_scope.
Notation "' ( x , y ) <- m ;; k" := (bind m (λ '(x, y), k))
  (at level 100, m at next level, x name, y name,
   right associativity) : trainer_scope.

Record ModelTrainer : Type := {
  img_height : nat;
  img_width : nat;
  batch_size : nat;
  epochs : nat
}.

(** [ModelTrainer()] *)
Definition new : ModelTrainer :=
  {| img_height := 224; img_width := 224; batch_size := 32; epochs := 50 |}.

Definition download_dataset (w : Env) (self : ModelTrainer)
    (dataset_type : string) : T unit :=
  (_ <- perform (Mkdir "datasets") (mkdir w "datasets") ;;
   if String.eqb dataset_type "disease" then
     let dataset_url :=
       "https://www.kaggle.com/datasets/vipoooool/new-plant-diseases-dataset" in
     _ <- print "Please download the PlantVillage dataset from Kaggle:" ;;
     _ <- print dataset_url ;;
     print "Extract it to datasets/plant_disease/"
   else if String.eqb dataset_type "pest" then
     let dataset_url :=
       "https://www.kaggle.com/datasets/rtlmhjbn/ip02-dataset" in
     _ <- print "Please download the IP102 pest dataset from Kaggle:" ;;
     _ <- print dataset_url ;;
     print "Extract it to datasets/pest/"
   else ret tt)%T.

Definition create_model (w : Env) (self : ModelTrainer) (num_classes : nat)
    (model_name : string) : T network :=
  let base_model :=
    MobileNetV2 (img_height self, img_width self, 3%nat) false "imagenet"
      false false in
  let model :=
    {| inputs := Some (img_height self, img_width self, 3%nat);
       layers := [base_model; GlobalAveragePooling2D; Dropout 0.3;
                  Dense 512 "relu"; Dropout 0.3;
                  Dense num_classes "softmax"];
       optimizer_ := Adam 0.001;
       loss := "categorical_crossentropy";
       metrics := ["accuracy"] |} in
  (_ <- perform (Build model) (build w model) ;;
   ret model)%T.

Definition train_datagen : kwargs :=
  [("rescale", KNum (1 / 255)); ("rotation_range", KNat 20);
   ("width_shift_range", KNum 0.2); ("height_shift_range", KNum 0.2);
   ("shear_range", KNum 0.2); ("zoom_range", KNum 0.2);
   ("horizontal_flip", KBool true); ("fill_mode", KStr "nearest");
   ("validation_split", KNum 0.2)].

Definition val_datagen : kwargs :=
  [("rescale", KNum (1 / 255)); ("validation_split", KNum 0.2)].

Definition flow_args (self : ModelTrainer) (subset : string) (shuffle : bool)
    : kwargs :=
  [("target_size", KSize (img_height self) (img_width self));
   ("batch_size", KNat (batch_size self));
   ("class_mode", KStr "categorical");
   ("subset", KStr subset);
   ("shuffle", KBool shuffle)].

Definition prepare_data_generators (w : Env) (self : ModelTrainer)
    (data_dir : string) : T (Generator * Generator) :=
  (train_generator <-
     (let args := flow_args self "training" true in
      perform (FlowFromDirectory train_datagen data_dir args)
        (flow_from_directory w train_datagen data_dir args)) ;;
   validation_generator <-
     (let args := flow_args self "validation" false in
      perform (FlowFromDirectory val_datagen data_dir args)
        (flow_from_directory w val_datagen data_dir args)) ;;
   ret (train_generator, validation_generator))%T.

(** The callbacks of a training run that checkpoints to [file]. *)
Definition callbacks_for (file : string) : list callback :=
  [("ModelCheckpoint",
    [("filepath", KStr file); ("monitor", KStr "val_accuracy");
     ("save_best_only", KBool true); ("mode", KStr "max"); ("verbose", KNat 1)]);
   ("EarlyStopping",
    [("monitor", KStr "val_loss"); ("patience", KNat 10);
     ("restore_best_weights", KBool true)]);
   ("ReduceLROnPlateau",
    [("monitor", KStr "val_loss"); ("factor", KNum 0.2); ("patience", KNat 5);
     ("min_lr", KNum 0.0001)])].

(** The keyword arguments of [model.fit] besides the generators and the
    callbacks. *)
Definition fit_args (self : ModelTrainer) (train_gen val_gen : Generator)
    : kwargs :=
  [("steps_per_epoch", KNat (samples train_gen / batch_size self));
   ("epochs", KNat (epochs self));
   ("validation_steps", KNat (samples val_gen / batch_size self));
   ("verbose", KNat 1)].

Definition str_of_nat (n : nat) : string :=
  NilZero.string_of_uint (Nat.to_uint n).

Definition train_disease_model (w : Env) (self : ModelTrainer)
    : T (option (network * History)) :=
  (_ <- print "Training Disease Detection Model..." ;;
   let data_dir := "datasets/plant_disease/train" in
   if negb (path_exists w data_dir) then
     _ <- print "Dataset not found. Please download the dataset first." ;;
     _ <- download_dataset w self "disease" ;;
     ret None
   else
     '(train_gen, val_gen) <- prepare_data_generators w self data_dir ;;
     let num_classes := length (class_indices train_gen) in
     _ <- print ("Number of classes: " +:+ str_of_nat num_classes) ;;
     _ <- perform (PrintClassIndices (class_indices train_gen)) (inr tt) ;;
     model <- create_model w self num_classes "disease" ;;
     let callbacks := callbacks_for "disease_model.h5" in
     history <-
       (let args := fit_args self train_gen val_gen in
        perform (Fit model train_gen val_gen args callbacks)
          (fit w model train_gen val_gen args callbacks)) ;;
     _ <- print "Disease model training completed!" ;;
     ret (Some (model, history)))%T.

Definition train_pest_model (w : Env) (self : ModelTrainer)
    : T (option (network * History)) :=
  (_ <- print "Training Pest Detection Model..." ;;
   let data_dir := "datasets/pest/train" in
   if negb (path_exists w data_dir) then
     _ <- print "Dataset not found. Please download the dataset first." ;;
     _ <- download_dataset w self "pest" ;;
     ret None
   else
     '(train_gen, val_gen) <- prepare_data_generators w self data_dir ;;
     let num_classes := length (class_indices train_gen) in
     _ <- print ("Number of classes: " +:+ str_of_nat num_classes) ;;
     _ <- perform (PrintClassIndices (class_indices train_gen)) (inr tt) ;;
     model <- create_model w self num_classes "pest" ;;
     let callbacks := callbacks_for "pest_model.h5" in
     history <-
       (let args := fit_args self train_gen val_gen in
        perform (Fit model train_gen val_gen args callbacks)
          (fit w model train_gen val_gen args callbacks)) ;;
     _ <- print "Pest model training completed!" ;;
     ret (Some (model, history)))%T.

(** The [Sequential] model of [create_dummy_models] with [n] outputs. *)
Definition dummy_network (n : nat) : network :=
  {| inputs := None;
     layers := [Conv2D 32 (3, 3)%nat "relu" (Some (224, 224, 3)%nat);
                MaxPooling2D 2 2;
                Conv2D 64 (3, 3)%nat "relu" None;
                MaxPooling2D 2 2;
                Conv2D 128 (3, 3)%nat "relu" None;
                MaxPooling2D 2 2;
                Flatten;
                Dense 512 "relu";
                Dense n "softmax"];
     optimizer_ := by_name "adam";
     loss := "categorical_crossentropy";
     metrics := ["accuracy"] |}.

Definition create_dummy_models (w : Env) : T unit :=
  (_ <- print "Creating dummy models for testing..." ;;
   let disease_model := dummy_network 38 in
   _ <- perform (Build disease_model) (build w disease_model) ;;
   let pest_model := dummy_network 10 in
   _ <- perform (Build pest_model) (build w pest_model) ;;
   _ <- perform (Save disease_model "disease_model.h5")
          (save w disease_model "disease_model.h5") ;;
   _ <- perform (Save pest_model "pest_model.h5")
          (save w pest_model "pest_model.h5") ;;
   _ <- print "Dummy models created successfully!" ;;
   _ <- print "disease_model.h5 - 38 classes" ;;
   print "pest_model.h5 - 10 classes")%T.

(** [s * n] for a string [s] *)
Fixpoint str_repeat (s : string) (n : nat) : string :=
  match n with
  | O => ""
  | S n' => s +:+ str_repeat s n'
  end.

(** The newline character. *)
Definition nl : string := String (ascii_of_nat 10) "".

Definition prompt : string :=
  "Choose option:" +:+ nl +:+ "1. Train Disease Model" +:+ nl +:+
  "2. Train Pest Model" +:+ nl +:+ "3. Create Dummy Models (for testing)" +:+ nl +:+
  "4. Train Both Models" +:+ nl +:+ "Enter choice (1-4): ".

(** How a run of the script ends. *)
Record outcome : Type := {
  trace : list event;
  exit_status : Z;
  traceback : option exn
}.

(** The [__main__] block.  The script has no exception handler: whatever a
    call raises ends the run with a traceback and status 1. *)
Definition main (w : Env) : outcome :=
  let body : T unit :=
    (let trainer := new in
     _ <- print "Plant Disease and Pest Detection Model Training" ;;
     _ <- print (str_repeat "=" 50) ;;
     choice <- perform (Input prompt) (input w prompt) ;;
     _ <- (if String.eqb choice "1" then
             _ <- train_disease_model w trainer ;; ret tt
           else if String.eqb choice "2" then
             _ <- train_pest_model w trainer ;; ret tt
           else if String.eqb choice "3" then
             create_dummy_models w
           else if String.eqb choice "4" then
             _ <- train_disease_model w trainer ;;
             _ <- train_pest_model w trainer ;; ret tt
           else print "Invalid choice!") ;;
     print (nl +:+ "Training completed!"))%T in
  match body [] with
  | (tr, Ret _) => {| trace := tr; exit_status := 0; traceback := None |}
  | (tr, Raise e) => {| trace := tr; exit_status := 1; traceback := Some e |}
  end.

End Trainer.

(** * Vocabulary of the properties

    Predicates in which the properties are stated, and a few concrete
    predictors, images and machines on which they are exercised. *)

(** [first_max v i p]: [p] is the element of [v] at index [i], no element of
    [v] is greater and every element before [i] is strictly smaller. *)
Definition first_max (v : list Q) (i : nat) (p : Q) : Prop :=
  v !! i = Some p ∧
  (∀ j q, v !! j = Some q → (q <= p)%Q) ∧
  (∀ j q, (j < i)%nat → v !! j = Some q → (q < p)%Q).

(** The advisory part of a response. *)
Definition advisory_of (r : Prediction) : Advisory :=
  {| description := r_description r;
     treatment := r_treatment r;
     pesticide := r_pesticide r |}.

(** A disease predictor with labels and a table of its own; the table holds
    a record under a label that has "Healthy" in it. *)
Definition orchard : Disease.DiseasePredictor :=
  {| Disease.model_path := "orchard.h5"; Disease.model := None;
     Disease.class_names := ["Pear_rust"; "Pear_Healthy"];
     Disease.disease_info :=
       {[ "Pear_Healthy" := {| description := "Rust on the underside";
                               treatment := "Remove junipers nearby";
                               pesticide := Disease.fungicide "Sulfur" "3 g/L" |} ]} |}.

(** What the pest response shows for one character of a label: a space for
    an underscore, the upper-case letter otherwise. *)
Definition display_char (c : ascii) : ascii :=
  if Ascii.eqb c "_" then " "%char else ascii_upper c.




(** A machine without model files or images. *)
Definition offline : World :=
  {| os_path_exists := λ _, false;
     keras_load_model := λ _, inl "No file or directory found";
     cv2_imread := λ _, None;
     cv2_resize := λ img _, img |}.

(** [img.shape == (height, width, 3)] *)
Definition has_size (img : image) (width height : nat) : bool :=
  (length img =? height)%nat &&
  forallb (λ row : list pixel, (length row =? width)%nat) img.

(** [t.shape == (n, h, w, c)] *)
Definition has_shape (t : tensor) (n h w c : nat) : bool :=
  (length t =? n)%nat &&
  forallb (λ im : list (list (list float32)),
     (length im =? h)%nat &&
     forallb (λ row : list (list float32),
        (length row =? w)%nat &&
        forallb (λ px : list float32, (length px =? c)%nat) row) im) t.

(** The elements of a tensor, and the channel bytes of an image, in storage
    order. *)
Definition tensor_values (t : tensor) : list float32 :=
  concat (concat (concat t)).

Definition image_bytes (img : image) : list uint8 :=
  concat (map (λ p, [ch0 p; ch1 p; ch2 p]) (concat img)).

(** [0 <= x <= 1], compared as binary32 values. *)
Definition in_unit_interval (x : float32) : bool :=
  SFleb (S754_zero false) x && SFleb x (float32_of_N 1).

(** The rational number a finite binary32 value denotes (0 for the values
    that are not finite, which division of a byte by 255 never produces). *)
Definition float32_to_Q (x : float32) : Q :=
  match x with
  | S754_finite s m e =>
      let mag := match e with
                 | Zneg k => Zpos m # (2 ^ k)
                 | _ => inject_Z (Zpos m * 2 ^ e)
                 end in
      if s then Qopp mag else mag
  | _ => 0
  end.

(** A resize by nearest neighbour, and a machine that holds one small
    picture, three pixels wide and two high. *)
Definition resize_nearest (img : image) (size : nat * nat) : image :=
  let '(width, height) := size in
  let rows := length img in
  let cols := length (hd [] img) in
  let black := {| ch0 := Byte.x00; ch1 := Byte.x00; ch2 := Byte.x00 |} in
  map (λ i, map (λ j, nth (j * cols / width) (nth (i * rows / height) img []) black)
                (seq 0 width))
      (seq 0 height).

Definition leaf : image :=
  [ [ {| ch0 := Byte.x10; ch1 := Byte.x80; ch2 := Byte.x20 |};
      {| ch0 := Byte.x12; ch1 := Byte.xff; ch2 := Byte.x00 |};
      {| ch0 := Byte.x30; ch1 := Byte.x90; ch2 := Byte.x40 |} ];
    [ {| ch0 := Byte.x00; ch1 := Byte.x7f; ch2 := Byte.x21 |};
      {| ch0 := Byte.xff; ch1 := Byte.xff; ch2 := Byte.xff |};
      {| ch0 := Byte.x05; ch1 := Byte.x60; ch2 := Byte.x0a |} ] ].

(** A network that shows one line of progress and answers every image with
    the same three probabilities. *)
Definition studio_network : Model :=
  λ _, inr (["1/1 [==============================] - 0s 45ms/step"],
            [[0.1; 0.7; 0.2]%Q]).

Definition studio : World :=
  {| os_path_exists := λ p, String.eqb p "disease_model.h5";
     keras_load_model := λ _, inr studio_network;
     cv2_imread := λ p, if String.eqb p "leaf.jpg" then Some leaf else None;
     cv2_resize := resize_nearest |}.



(** ** Further vocabulary *)

(** The text shown by the pest response for a label. *)
Definition display_form (l : string) : string := replace "_" " " (upper l).

(** The test of the disease composer for a healthy plant. *)
Definition names_healthy (l : string) : bool := contains "healthy" (lower l).

(** A string of ASCII characters only.  On such strings [upper], [lower]
    and [replace] are what Python's [str.upper], [str.lower] and
    [str.replace] do. *)
Fixpoint is_ascii (s : string) : bool :=
  match s with
  | EmptyString => true
  | String c s' => (N_of_ascii c <? 128)%N && is_ascii s'
  end.

(** The sum of a vector. *)
Definition Qsum (v : list Q) : Q := foldr Qplus 0%Q v.

(** A machine whose model file loads but which has no readable image. *)
Definition no_camera : World :=
  {| os_path_exists := λ _, true;
     keras_load_model := λ _, inr (λ _, inr ([], [[0.5; 0.5]%Q]));
     cv2_imread := λ _, None;
     cv2_resize := λ img _, img |}.



(** The 256 bytes in increasing order, each with its normalised value. *)
Definition all_bytes : list uint8 :=
  omap (λ n, Byte.of_N (N.of_nat n)) (seq 0 256).

Definition normalised_bytes : list (N * float32) :=
  map (λ b, (Byte.to_N b, div255 b)) all_bytes.

(** A machine that decodes every file to the picture [leaf] and whose resize
    hands the image back as it is. *)
Definition same_size : World :=
  {| os_path_exists := λ _, true;
     keras_load_model := λ _, inr (λ _, inr ([], [[1]%Q]));
     cv2_imread := λ _, Some leaf;
     cv2_resize := λ img _, img |}.

(** ** Vocabulary for the training script *)

(** The last line of every run that ends normally. *)
Definition completed : Trainer.event :=
  Trainer.Print (Trainer.nl +:+ "Training completed!").

(** What every run starts with: the title, the rule and the menu. *)
Definition opening : list Trainer.event :=
  [Trainer.Print "Plant Disease and Pest Detection Model Training";
   Trainer.Print "==================================================";
   Trainer.Input Trainer.prompt].

(** The events of a training method that finds no dataset. *)
Definition disease_dataset_missing : list Trainer.event :=
  [Trainer.Print "Training Disease Detection Model...";
   Trainer.Print "Dataset not found. Please download the dataset first.";
   Trainer.Mkdir "datasets";
   Trainer.Print "Please download the PlantVillage dataset from Kaggle:";
   Trainer.Print "https://www.kaggle.com/datasets/vipoooool/new-plant-diseases-dataset";
   Trainer.Print "Extract it to datasets/plant_disease/"].

Definition pest_dataset_missing : list Trainer.event :=
  [Trainer.Print "Training Pest Detection Model...";
   Trainer.Print "Dataset not found. Please download the dataset first.";
   Trainer.Mkdir "datasets";
   Trainer.Print "Please download the IP102 pest dataset from Kaggle:";
   Trainer.Print "https://www.kaggle.com/datasets/rtlmhjbn/ip02-dataset";
   Trainer.Print "Extract it to datasets/pest/"].

(** An event in which Keras builds, trains or writes a model. *)
Definition touches_model (ev : Trainer.event) : bool :=
  match ev with
  | Trainer.Build _ | Trainer.Fit _ _ _ _ _ | Trainer.Save _ _
  | Trainer.FlowFromDirectory _ _ _ => true
  | _ => false
  end.

(** The width of the last layer of a network, when it is a dense layer. *)
Definition output_units (net : Trainer.network) : option nat :=
  match last (Trainer.layers net) with
  | Some (Trainer.Dense n _) => Some n
  | _ => None
  end.

(** A computation of the script that appends events other than the closing
    line, and that raises nothing but what a library call raised. *)
Definition orderly {A} (m : Trainer.T A) : Prop :=
  ∀ tr, ∃ evs, (fst (m tr) = tr ++ evs) ∧ (completed ∉ evs) ∧
               (∀ e, snd (m tr) = Raise e → ∃ msg, e = LibraryError msg).

(** A machine without datasets, on which the user types [choice]. *)
Definition bare (choice : string) : Trainer.Env :=
  {| Trainer.path_exists := λ _, false;
     Trainer.mkdir := λ _, inr tt;
     Trainer.input := λ _, inr choice;
     Trainer.flow_from_directory := λ _ _ _, inl "No such file or directory";
     Trainer.build := λ _, inr tt;
     Trainer.fit := λ _ _ _ _ _, inl "no data";
     Trainer.save := λ _ _, inr tt |}.

(** A machine on which the directory "datasets" cannot be created. *)
Definition read_only (choice : string) : Trainer.Env :=
  {| Trainer.path_exists := λ _, false;
     Trainer.mkdir := λ _, inl "Read-only file system: 'datasets'";
     Trainer.input := λ _, inr choice;
     Trainer.flow_from_directory := λ _ _ _, inl "No such file or directory";
     Trainer.build := λ _, inr tt;
     Trainer.fit := λ _ _ _ _ _, inl "no data";
     Trainer.save := λ _ _, inr tt |}.

(** The branch of the menu taken for the text the user typed. *)
Definition dispatch (w : Trainer.Env) (choice : string) : Trainer.T unit :=
  if String.eqb choice "1" then
    Trainer.bind (Trainer.train_disease_model w Trainer.new)
      (λ _, Trainer.ret tt)
  else if String.eqb choice "2" then
    Trainer.bind (Trainer.train_pest_model w Trainer.new)
      (λ _, Trainer.ret tt)
  else if String.eqb choice "3" then
    Trainer.create_dummy_models w
  else if String.eqb choice "4" then
    Trainer.bind (Trainer.train_disease_model w Trainer.new)
      (λ _, Trainer.bind (Trainer.train_pest_model w Trainer.new)
              (λ _, Trainer.ret tt))
  else Trainer.print "Invalid choice!".

(** A machine on which every call succeeds but which has no datasets. *)
Definition workshop : Trainer.Env :=
  {| Trainer.path_exists := λ _, false;
     Trainer.mkdir := λ _, inr tt;
     Trainer.input := λ _, inr "3";
     Trainer.flow_from_directory := λ _ _ _, inl "No such file or directory";
     Trainer.build := λ _, inr tt;
     Trainer.fit := λ _ _ _ _ _, inl "no data";
     Trainer.save := λ _ _, inr tt |}.

(** A machine with a small disease dataset of three classes: 70 training
    and 17 validation images. *)
Definition lab : Trainer.Env :=
  {| Trainer.path_exists := λ p, String.eqb p "datasets/plant_disease/train";
     Trainer.mkdir := λ _, inr tt;
     Trainer.input := λ _, inr "1";
     Trainer.flow_from_directory := λ _ _ args,
       inr {| Trainer.samples :=
                match args !! 3%nat with
                | Some (_, Trainer.KStr "training") => 70
                | _ => 17
                end;
              Trainer.class_indices :=
                [("blight", 0); ("healthy", 1); ("rust", 2)]%nat |};
     Trainer.build := λ _, inr tt;
     Trainer.fit := λ _ _ _ _ _, inr [("loss", [0.9; 0.5]%Q)];
     Trainer.save := λ _ _, inr tt |}.

(** * Properties *)

(** ** The argmax scan *)

Lemma Qle_bool_false (x y : Q) : Qle_bool x y = false → (y < x)%Q.
Proof.
  intros H. apply Qnot_le_lt. intros Hle.
  apply Qle_bool_iff in Hle. congruence.
Qed.

Lemma first_max_keep (pre : list Q) (x best : Q) (best_i : nat) :
  first_max pre best_i best → (x <= best)%Q →
  first_max (pre ++ [x]) best_i best.
Proof.
  intros (Hat & Hmax & Hfirst) Hx. split; [|split].
  - by apply lookup_app_l_Some.
  - intros j q Hj. apply lookup_app_Some in Hj as [Hj | [_ Hj]].
    + by eapply Hmax.
    + apply list_lookup_singleton_Some in Hj as [_ <-]. done.
  - intros j q Hlt Hj. apply lookup_app_Some in Hj as [Hj | [Hge _]].
    + by eapply Hfirst.
    + apply lookup_lt_Some in Hat. lia.
Qed.

Lemma first_max_move (pre : list Q) (x best : Q) (best_i : nat) :
  first_max pre best_i best → (best < x)%Q →
  first_max (pre ++ [x]) (length pre) x.
Proof.
  intros (Hat & Hmax & Hfirst) Hx. split; [|split].
  - rewrite lookup_app_r; [|done]. by rewrite Nat.sub_diag.
  - intros j q Hj. apply lookup_app_Some in Hj as [Hj | [_ Hj]].
    + apply Qle_trans with best; [by eapply Hmax | by apply Qlt_le_weak].
    + apply list_lookup_singleton_Some in Hj as [_ <-]. apply Qle_refl.
  - intros j q Hlt Hj. rewrite lookup_app_l in Hj; [|done].
    apply Qle_lt_trans with best; [by eapply Hmax | done].
Qed.

Lemma argmax_scan_first_max (rest pre : list Q) (best : Q) (best_i : nat) :
  first_max pre best_i best →
  ∃ p, first_max (pre ++ rest) (argmax_scan rest (length pre) best best_i) p.
Proof.
  revert pre best best_i.
  induction rest as [|x rest IH]; intros pre best best_i Hinv; simpl.
  - exists best. by rewrite app_nil_r.
  - replace (pre ++ x :: rest) with ((pre ++ [x]) ++ rest)
      by (by rewrite <- app_assoc).
    replace (S (length pre)) with (length (pre ++ [x]))
      by (rewrite length_app; simpl; lia).
    destruct (Qle_bool x best) eqn:Hcmp.
    + apply IH. apply first_max_keep; [done|]. by apply Qle_bool_iff.
    + apply (IH (pre ++ [x]) x (length pre)).
      eapply first_max_move; [done|]. by apply Qle_bool_false.
Qed.

Lemma np_argmax_first_max (v : list Q) :
  v ≠ [] → ∃ i p, np_argmax v = Ret i ∧ first_max v i p.
Proof.
  destruct v as [|x rest]; [done|]. intros _.
  destruct (argmax_scan_first_max rest [x] x 0) as [p Hp].
  - split; [done|]. split.
    + intros [|j] q Hj; simplify_eq/=. apply Qle_refl.
    + intros j q Hlt. lia.
  - exists (argmax_scan rest 1 x 0), p. done.
Qed.

(** ** The result composer *)

Lemma disease_compose_at (self : Disease.DiseasePredictor) (v : list Q)
    (i : nat) (p : Q) (l : string) :
  np_argmax v = Ret i → v !! i = Some p →
  Disease.class_names self !! i = Some l →
  ∃ r, Disease.compose self [v] = Ret r ∧
       detected_class r = l ∧ confidence r = p ∧
       (contains "healthy" (lower l) = true →
        r_description r = description Disease.healthy_record ∧
        r_treatment r = treatment Disease.healthy_record ∧
        r_pesticide r = pesticide Disease.healthy_record) ∧
       (contains "healthy" (lower l) = false →
        let info := Disease.get_disease_info self l in
        r_description r = description info ∧
        r_treatment r = treatment info ∧
        r_pesticide r = pesticide info).
Proof.
  intros Hi Hp Hl. unfold Disease.compose, py_index, np_index. simpl.
  rewrite Hi. simpl. rewrite Hp. simpl. rewrite Hl. simpl.
  eexists. split; [reflexivity|]. simpl.
  destruct (contains "healthy" (lower l)); repeat split; done.
Qed.

Lemma pest_compose_at (self : Pest.PestPredictor) (v : list Q)
    (i : nat) (p : Q) (l : string) :
  np_argmax v = Ret i → v !! i = Some p →
  Pest.class_names self !! i = Some l →
  ∃ r, Pest.compose self [v] = Ret r ∧
       detected_class r = replace "_" " " (upper l) ∧ confidence r = p ∧
       let info := Pest.get_pest_info self l in
       r_description r = description info ∧
       r_treatment r = treatment info ∧
       r_pesticide r = pesticide info.
Proof.
  intros Hi Hp Hl. unfold Pest.compose, py_index, np_index. simpl.
  rewrite Hi. simpl. rewrite Hp. simpl. rewrite Hl. simpl.
  eexists. split; [reflexivity|]. done.
Qed.

(** C1.  On every non-empty probability vector the argmax of the result
    composer is the index of a largest element, the first one among equals,
    and the confidence of the response is the element of the vector at that
    index, unchanged; this holds in both pipelines whenever the index names a
    label.  For the vector 0.1, 0.7, 0.2 the index is 1 and the confidence
    0.7. *)
Theorem C1_argmax_first_max_confidence :
  (∀ v : list Q, v ≠ [] →
     ∃ i p, np_argmax v = Ret i ∧ first_max v i p ∧
       (∀ self l, Disease.class_names self !! i = Some l →
          ∃ r, Disease.compose self [v] = Ret r ∧
               detected_class r = l ∧ confidence r = p) ∧
       (∀ self l, Pest.class_names self !! i = Some l →
          ∃ r, Pest.compose self [v] = Ret r ∧ confidence r = p)) ∧
  np_argmax [0.1; 0.7; 0.2]%Q = Ret 1%nat ∧
  (∀ self l, Disease.class_names self !! 1%nat = Some l →
     ∃ r, Disease.compose self [[0.1; 0.7; 0.2]%Q] = Ret r ∧
          detected_class r = l ∧ confidence r = 0.7%Q) ∧
  (∀ self l, Pest.class_names self !! 1%nat = Some l →
     ∃ r, Pest.compose self [[0.1; 0.7; 0.2]%Q] = Ret r ∧
          confidence r = 0.7%Q).
Proof.
  split; [|split; [reflexivity|split]].
  - intros v Hv. destruct (np_argmax_first_max v Hv) as (i & p & Hi & Hmax).
    exists i, p. split; [done|]. split; [done|].
    destruct Hmax as (Hp & _). split; intros self l Hl.
    + destruct (disease_compose_at self v i p l Hi Hp Hl) as (r & ? & ? & ? & _).
      by exists r.
    + destruct (pest_compose_at self v i p l Hi Hp Hl) as (r & ? & ? & ? & _).
      by exists r.
  - intros self l Hl.
    destruct (disease_compose_at self [0.1; 0.7; 0.2]%Q 1 0.7%Q l)
      as (r & ? & ? & ? & _); [done..|]. by exists r.
  - intros self l Hl.
    destruct (pest_compose_at self [0.1; 0.7; 0.2]%Q 1 0.7%Q l)
      as (r & ? & ? & ? & _); [done..|]. by exists r.
Qed.

Lemma C1_witness :
  [0.3; 0.3; 0.1]%Q ≠ [] ∧
  ∃ i p, np_argmax [0.3; 0.3; 0.1]%Q = Ret i ∧
         first_max [0.3; 0.3; 0.1]%Q i p.
Proof.
  split; [discriminate|].
  destruct (proj1 C1_argmax_first_max_confidence [0.3; 0.3; 0.1]%Q)
    as (i & p & Hi & Hmax & _); [discriminate|].
  exists i, p. split; assumption.
Defined.

Lemma first_max_lt_length (v : list Q) (i : nat) (p : Q) :
  first_max v i p → (i < length v)%nat.
Proof. intros (Hp & _). by eapply lookup_lt_Some. Qed.

Lemma np_argmax_nil_iff (v : list Q) (e : exn) :
  np_argmax v = Raise e ↔
  v = [] ∧ e = ValueError "attempt to get argmax of an empty sequence".
Proof.
  destruct v; simpl; split.
  - intros [= <-]. done.
  - intros [_ ->]. done.
  - discriminate.
  - intros [[=] _].
Qed.






(** C3 (as the code has it).  The disease label list has 38 entries, the
    pest label list has 10, and neither repeats a label. *)
Theorem C3_label_set_sizes :
  length Disease.class_names_literal = 38%nat ∧
  length Pest.class_names_literal = 10%nat ∧
  NoDup Disease.class_names_literal ∧
  NoDup Pest.class_names_literal ∧
  (∀ path, Disease.class_names (Disease.new path) = Disease.class_names_literal) ∧
  (∀ path, Pest.class_names (Pest.new path) = Pest.class_names_literal).
Proof.
  split; [reflexivity|]. split; [reflexivity|].
  split; [by apply (bool_decide_unpack _); vm_compute|].
  split; [by apply (bool_decide_unpack _); vm_compute|].
  split; reflexivity.
Qed.

(** C3, as stated, fails: the disease label list does not have 37 entries. *)
Lemma C3_counterexample : length Disease.class_names_literal ≠ 37%nat.
Proof. simpl. lia. Qed.

(** C4.  In the disease pipeline, when the predicted label contains
    "healthy" in any letter case, the advisory part of the response is the
    fixed no-treatment record, whatever the advisory table of the predictor
    holds for that label; the label "Tomato_healthy" always gets the
    description "Plant appears healthy". *)
Theorem C4_healthy_override :
  (∀ (self : Disease.DiseasePredictor) (v : list Q) (i : nat) (l : string),
     np_argmax v = Ret i →
     Disease.class_names self !! i = Some l →
     contains "healthy" (lower l) = true →
     ∃ r, Disease.compose self [v] = Ret r ∧
          detected_class r = l ∧
          r_description r = "Plant appears healthy" ∧
          r_treatment r = "Continue regular care and monitoring" ∧
          r_pesticide r = {| name := "No treatment needed"; dosage := "N/A";
                             type_ := "N/A" |}) ∧
  (∀ (self : Disease.DiseasePredictor) (v : list Q) (i : nat),
     np_argmax v = Ret i →
     Disease.class_names self !! i = Some "Tomato_healthy" →
     ∃ r, Disease.compose self [v] = Ret r ∧
          r_description r = "Plant appears healthy").
Proof.
  split.
  - intros self v i l Hi Hl Hh.
    destruct v as [|x rest]; [discriminate|].
    destruct (np_argmax_first_max (x :: rest)) as (i' & p & Hi' & Hp & _); [done|].
    rewrite Hi in Hi'. injection Hi' as <-.
    destruct (disease_compose_at self _ i p l Hi Hp Hl)
      as (r & Hr & Hd & _ & Hyes & _).
    destruct (Hyes Hh) as (? & ? & ?). exists r. done.
  - intros self v i Hi Hl.
    destruct v as [|x rest]; [discriminate|].
    destruct (np_argmax_first_max (x :: rest)) as (i' & p & Hi' & Hp & _); [done|].
    rewrite Hi in Hi'. injection Hi' as <-.
    destruct (disease_compose_at self _ i p _ Hi Hp Hl)
      as (r & Hr & _ & _ & Hyes & _).
    destruct (Hyes eq_refl) as (? & _). exists r. done.
Qed.

Lemma C4_witness :
  np_argmax [0.25; 0.75]%Q = Ret 1%nat ∧
  Disease.class_names orchard !! 1%nat = Some "Pear_Healthy" ∧
  contains "healthy" (lower "Pear_Healthy") = true ∧
  is_Some (Disease.disease_info orchard !! "Pear_Healthy") ∧
  ∃ r, Disease.compose orchard [[0.25; 0.75]%Q] = Ret r ∧
       r_description r = "Plant appears healthy".
Proof.
  split; [reflexivity|]. split; [reflexivity|]. split; [reflexivity|].
  split; [eexists; vm_compute; reflexivity|].
  destruct (proj1 C4_healthy_override orchard [0.25; 0.75]%Q 1%nat "Pear_Healthy")
    as (r & Hr & _ & Hd & _); [reflexivity..|].
  exists r. split; assumption.
Defined.

(** C5.  A label without an entry in the advisory table gets the generic
    default record from the table lookup, in both pipelines, and the
    composer returns a response for it: the missing entry is never an
    error.  The pest response carries the default record; the disease
    response carries it too unless the label names a healthy plant, where the
    later override of the disease pipeline puts the no-treatment record in
    its place. *)
Theorem C5_missing_advisory_falls_back :
  (∀ self l, Disease.disease_info self !! l = None →
     Disease.get_disease_info self l =
       {| description := "Disease detected";
          treatment := "Consult agricultural expert for treatment";
          pesticide := {| name := "General Fungicide"; dosage := "As per label";
                          type_ := "Fungicide" |} |}) ∧
  (∀ self l, Pest.pest_info self !! l = None →
     Pest.get_pest_info self l =
       {| description := "Pest detected";
          treatment := "Consult agricultural expert for treatment";
          pesticide := {| name := "General Insecticide"; dosage := "As per label";
                          type_ := "Insecticide" |} |}) ∧
  (∀ self (v : list Q) i l,
     np_argmax v = Ret i → Pest.class_names self !! i = Some l →
     Pest.pest_info self !! l = None →
     ∃ r, Pest.compose self [v] = Ret r ∧
          advisory_of r = Pest.fallback_record) ∧
  (∀ self (v : list Q) i l,
     np_argmax v = Ret i → Disease.class_names self !! i = Some l →
     Disease.disease_info self !! l = None →
     ∃ r, Disease.compose self [v] = Ret r ∧
          advisory_of r = if contains "healthy" (lower l)
                          then Disease.healthy_record
                          else Disease.fallback_record).
Proof.
  split; [|split; [|split]].
  - intros self l Hl. unfold Disease.get_disease_info. by rewrite Hl.
  - intros self l Hl. unfold Pest.get_pest_info. by rewrite Hl.
  - intros self v i l Hi Hl Hnone.
    destruct v as [|x rest]; [discriminate|].
    destruct (np_argmax_first_max (x :: rest)) as (i' & p & Hi' & Hp & _); [done|].
    rewrite Hi in Hi'. injection Hi' as <-.
    destruct (pest_compose_at self _ i p l Hi Hp Hl)
      as (r & Hr & _ & _ & Hd & Ht & Hpe).
    exists r. split; [done|]. unfold advisory_of. rewrite Hd, Ht, Hpe.
    unfold Pest.get_pest_info. by rewrite Hnone.
  - intros self v i l Hi Hl Hnone.
    destruct v as [|x rest]; [discriminate|].
    destruct (np_argmax_first_max (x :: rest)) as (i' & p & Hi' & Hp & _); [done|].
    rewrite Hi in Hi'. injection Hi' as <-.
    destruct (disease_compose_at self _ i p l Hi Hp Hl)
      as (r & Hr & _ & _ & Hyes & Hno).
    exists r. split; [done|]. unfold advisory_of.
    destruct (contains "healthy" (lower l)).
    + destruct (Hyes eq_refl) as (-> & -> & ->). done.
    + destruct (Hno eq_refl) as (-> & -> & ->).
      unfold Disease.get_disease_info. by rewrite Hnone.
Qed.

Lemma C5_witness :
  np_argmax [0.1; 0.2; 0.05; 0.05; 0.05; 0.55]%Q = Ret 5%nat ∧
  Disease.class_names (Disease.new "disease_model.h5") !! 5%nat
    = Some "Cherry_Powdery_mildew" ∧
  Disease.disease_info (Disease.new "disease_model.h5") !! "Cherry_Powdery_mildew"
    = None ∧
  ∃ r, Disease.compose (Disease.new "disease_model.h5")
         [[0.1; 0.2; 0.05; 0.05; 0.05; 0.55]%Q] = Ret r ∧
       advisory_of r = Disease.fallback_record.
Proof.
  split; [reflexivity|]. split; [reflexivity|]. split; [by vm_compute|].
  destruct (proj2 (proj2 (proj2 C5_missing_advisory_falls_back))
              (Disease.new "disease_model.h5")
              [0.1; 0.2; 0.05; 0.05; 0.05; 0.55]%Q 5%nat "Cherry_Powdery_mildew")
    as (r & Hr & Ha); [reflexivity | reflexivity | by vm_compute |].
  exists r. split; assumption.
Defined.

Lemma advisory_of_fields (r : Prediction) (a : Advisory) :
  r_description r = description a → r_treatment r = treatment a →
  r_pesticide r = pesticide a → advisory_of r = a.
Proof. intros Hd Ht Hp. unfold advisory_of. rewrite Hd, Ht, Hp. by destruct a. Qed.

Lemma ascii_upper_underscore (c : ascii) :
  Ascii.eqb (ascii_upper c) "_" = Ascii.eqb c "_".
Proof. destruct c as [[] [] [] [] [] [] [] []]; reflexivity. Qed.

Lemma display_form_get (l : string) (n : nat) :
  String.get n (replace "_" " " (upper l)) = display_char <$> String.get n l.
Proof.
  revert n. induction l as [|c l IH]; intros n; [done|].
  destruct n as [|n]; simpl.
  - unfold display_char. by rewrite ascii_upper_underscore.
  - apply IH.
Qed.

(** C6.  In the pest pipeline the [detected_class] of the response is the
    predicted label in upper case with every underscore turned into a space,
    while the advisory part is read from the table under the label as it
    stands in the label list.  The label "stem_borer" is shown as
    "STEM BORER" and its advisory is the table entry of "stem_borer"; the
    table has no entry under "STEM BORER". *)
Theorem C6_pest_display_form :
  (∀ (self : Pest.PestPredictor) (v : list Q) (i : nat) (l : string),
     np_argmax v = Ret i → Pest.class_names self !! i = Some l →
     ∃ r, Pest.compose self [v] = Ret r ∧
          detected_class r = replace "_" " " (upper l) ∧
          (∀ n, String.get n (detected_class r) = display_char <$> String.get n l) ∧
          advisory_of r = default Pest.fallback_record (Pest.pest_info self !! l)) ∧
  replace "_" " " (upper "stem_borer") = "STEM BORER" ∧
  (∀ (path : string) (v : list Q),
     np_argmax v = Ret 9%nat →
     ∃ r, Pest.compose (Pest.new path) [v] = Ret r ∧
          detected_class r = "STEM BORER" ∧
          Pest.pest_info_literal !! "stem_borer" = Some (advisory_of r)) ∧
  Pest.pest_info_literal !! "STEM BORER" = None.
Proof.
  assert (∀ (self : Pest.PestPredictor) (v : list Q) (i : nat) (l : string),
     np_argmax v = Ret i → Pest.class_names self !! i = Some l →
     ∃ r, Pest.compose self [v] = Ret r ∧
          detected_class r = replace "_" " " (upper l) ∧
          (∀ n, String.get n (detected_class r) = display_char <$> String.get n l) ∧
          advisory_of r = default Pest.fallback_record (Pest.pest_info self !! l))
    as Hgen.
  { intros self v i l Hi Hl.
    destruct v as [|x rest]; [discriminate|].
    destruct (np_argmax_first_max (x :: rest)) as (i' & p & Hi' & Hp & _); [done|].
    rewrite Hi in Hi'. injection Hi' as <-.
    destruct (pest_compose_at self _ i p l Hi Hp Hl)
      as (r & Hr & Hdc & _ & Hd & Ht & Hpe).
    exists r. split; [done|]. split; [done|]. split.
    - intros n. rewrite Hdc. apply display_form_get.
    - by apply advisory_of_fields. }
  split; [exact Hgen|]. split; [reflexivity|]. split; [|by vm_compute].
  intros path v Hi.
  destruct (Hgen (Pest.new path) v 9%nat "stem_borer" Hi eq_refl)
    as (r & Hr & Hdc & _ & Ha).
  exists r. split; [done|]. split; [done|]. rewrite Ha. by vm_compute.
Qed.

Lemma C6_witness :
  np_argmax [0; 0; 0; 0; 0; 0; 0; 0; 0.2; 0.8]%Q = Ret 9%nat ∧
  ∃ r, Pest.compose (Pest.new "pest_model.h5")
         [[0; 0; 0; 0; 0; 0; 0; 0; 0.2; 0.8]%Q] = Ret r ∧
       detected_class r = "STEM BORER".
Proof.
  split; [reflexivity|].
  destruct (proj1 (proj2 (proj2 C6_pest_display_form)) "pest_model.h5"
              [0; 0; 0; 0; 0; 0; 0; 0; 0.2; 0.8]%Q)
    as (r & Hr & Hdc & _); [reflexivity|].
  exists r. split; assumption.
Defined.

(** C10.  Every label of the pest label list has an entry in the pest
    advisory table.  Hence for a predictor as [__init__] builds it and a
    probability vector whose argmax is a valid index, the advisory part of
    the response is the table entry of the predicted label and the generic
    default record is never used. *)
Theorem C10_pest_labels_all_have_advisories :
  (∀ l, l ∈ Pest.class_names_literal → is_Some (Pest.pest_info_literal !! l)) ∧
  (∀ (path : string) (v : list Q) (i : nat),
     np_argmax v = Ret i → (i < length Pest.class_names_literal)%nat →
     ∃ l a r, Pest.class_names (Pest.new path) !! i = Some l ∧
              Pest.pest_info (Pest.new path) !! l = Some a ∧
              Pest.compose (Pest.new path) [v] = Ret r ∧
              advisory_of r = a ∧
              a ≠ Pest.fallback_record).
Proof.
  assert (Forall (λ l, ∃ a, Pest.pest_info_literal !! l = Some a ∧
                            a ≠ Pest.fallback_record)
            Pest.class_names_literal) as Hall.
  { repeat (apply Forall_cons; split;
            [eexists; split; [vm_compute; reflexivity | discriminate]|]).
    apply Forall_nil. exact I. }
  split.
  - intros l Hl. rewrite Forall_forall in Hall.
    destruct (Hall l Hl) as (a & Ha & _). by exists a.
  - intros path v i Hi Hlt.
    destruct (lookup_lt_is_Some_2 Pest.class_names_literal i Hlt) as [l Hl].
    rewrite Forall_forall in Hall.
    destruct (Hall l) as (a & Ha & Hne); [by eapply list_elem_of_lookup_2|].
    destruct v as [|x rest]; [discriminate|].
    destruct (np_argmax_first_max (x :: rest)) as (i' & p & Hi' & Hp & _); [done|].
    rewrite Hi in Hi'. injection Hi' as <-.
    destruct (pest_compose_at (Pest.new path) _ i p l Hi Hp Hl)
      as (r & Hr & _ & _ & Hd & Ht & Hpe).
    exists l, a, r. split; [done|]. split; [done|]. split; [done|].
    split; [|done].
    unfold Pest.get_pest_info in Hd, Ht, Hpe. simpl Pest.pest_info in Hd, Ht, Hpe.
    rewrite Ha in Hd, Ht, Hpe. by apply advisory_of_fields.
Qed.

Lemma C10_witness :
  np_argmax [0.1; 0.1; 0.1; 0.1; 0.6]%Q = Ret 4%nat ∧
  (4 < length Pest.class_names_literal)%nat ∧
  ∃ l a r, Pest.class_names (Pest.new "pest_model.h5") !! 4%nat = Some l ∧
           Pest.pest_info (Pest.new "pest_model.h5") !! l = Some a ∧
           Pest.compose (Pest.new "pest_model.h5")
             [[0.1; 0.1; 0.1; 0.1; 0.6]%Q] = Ret r ∧
           advisory_of r = a ∧ a ≠ Pest.fallback_record.
Proof.
  split; [reflexivity|]. split; [simpl; lia|].
  apply (proj2 C10_pest_labels_all_have_advisories "pest_model.h5"
           [0.1; 0.1; 0.1; 0.1; 0.6]%Q 4%nat); [reflexivity | simpl; lia].
Defined.

(** ** Exceptions that reach the entry point *)

Lemma preprocess_image_result (w : World) (path : string) :
  (∃ t, preprocess_image w path = Ret t) ∨
  (∃ msg, preprocess_image w path = Raise (ValueError msg)).
Proof.
  unfold preprocess_image.
  destruct (cv2_imread w path) as [img|]; simpl; eauto.
Qed.

Lemma disease_compose_result (self : Disease.DiseasePredictor)
    (predictions : list (list Q)) :
  (∃ r, Disease.compose self predictions = Ret r) ∨
  (∃ e, Disease.compose self predictions = Raise e ∧ is_Exception e = true).
Proof.
  unfold Disease.compose, py_index, np_index.
  destruct (predictions !! 0%nat) as [row|]; simpl; [|eauto].
  destruct (np_argmax row) as [i|e] eqn:Hi; simpl.
  - destruct (row !! i); simpl; [|eauto].
    destruct (Disease.class_names self !! i); simpl; eauto.
  - apply np_argmax_nil_iff in Hi as [_ ->]. eauto.
Qed.

Lemma pest_compose_result (self : Pest.PestPredictor)
    (predictions : list (list Q)) :
  (∃ r, Pest.compose self predictions = Ret r) ∨
  (∃ e, Pest.compose self predictions = Raise e ∧ is_Exception e = true).
Proof.
  unfold Pest.compose, py_index, np_index.
  destruct (predictions !! 0%nat) as [row|]; simpl; [|eauto].
  destruct (np_argmax row) as [i|e] eqn:Hi; simpl.
  - destruct (row !! i); simpl; [|eauto].
    destruct (Pest.class_names self !! i); simpl; eauto.
  - apply np_argmax_nil_iff in Hi as [_ ->]. eauto.
Qed.

(** [predict], stage by stage: what it returns or raises and what it has
    written to standard output by then. *)
Lemma disease_predict_cases (w : World) (self : Disease.DiseasePredictor)
    (path : string) (out : list line) :
  Disease.predict w self path out =
    match preprocess_image w path with
    | Raise e => (out, Raise (Exception ("Prediction error: " +:+ str e)))
    | Ret t =>
        match Disease.model self with
        | None => (out, Raise (Exception
            "Prediction error: 'NoneType' object has no attribute 'predict'"))
        | Some m =>
            match m t with
            | inl msg => (out, Raise (Exception ("Prediction error: " +:+ msg)))
            | inr (progress, predictions) =>
                match Disease.compose self predictions with
                | Ret r => (out ++ map Text progress, Ret r)
                | Raise e =>
                    (out ++ map Text progress,
                     Raise (Exception ("Prediction error: " +:+ str e)))
                end
            end
        end
    end.
Proof.
  unfold Disease.predict, io_try_except, io_bind, io_lift, io_raise,
    model_predict.
  destruct (preprocess_image_result w path) as [[t ->] | [msg ->]];
    [|reflexivity].
  destruct (Disease.model self) as [m|]; [|reflexivity].
  destruct (m t) as [msg|[progress predictions]]; [reflexivity|].
  destruct (disease_compose_result self predictions)
    as [[r ->] | (e & -> & He)]; [reflexivity|].
  by rewrite He.
Qed.

Lemma pest_predict_cases (w : World) (self : Pest.PestPredictor)
    (path : string) (out : list line) :
  Pest.predict w self path out =
    match preprocess_image w path with
    | Raise e => (out, Raise (Exception ("Prediction error: " +:+ str e)))
    | Ret t =>
        match Pest.model self with
        | None => (out, Raise (Exception
            "Prediction error: 'NoneType' object has no attribute 'predict'"))
        | Some m =>
            match m t with
            | inl msg => (out, Raise (Exception ("Prediction error: " +:+ msg)))
            | inr (progress, predictions) =>
                match Pest.compose self predictions with
                | Ret r => (out ++ map Text progress, Ret r)
                | Raise e =>
                    (out ++ map Text progress,
                     Raise (Exception ("Prediction error: " +:+ str e)))
                end
            end
        end
    end.
Proof.
  unfold Pest.predict, io_try_except, io_bind, io_lift, io_raise,
    model_predict.
  destruct (preprocess_image_result w path) as [[t ->] | [msg ->]];
    [|reflexivity].
  destruct (Pest.model self) as [m|]; [|reflexivity].
  destruct (m t) as [msg|[progress predictions]]; [reflexivity|].
  destruct (pest_compose_result self predictions)
    as [[r ->] | (e & -> & He)]; [reflexivity|].
  by rewrite He.
Qed.



(** The three ways [__init__] can end. *)
Lemma disease_init_cases (w : World) (path : string) (out : list line) :
  Disease.init w path out =
    if os_path_exists w path then
      match keras_load_model w path with
      | inr m => (out, Ret {| Disease.model_path := path;
                              Disease.model := Some m;
                              Disease.class_names := Disease.class_names_literal;
                              Disease.disease_info := Disease.disease_info_literal |})
      | inl msg => (out ++ [Text ("Error loading model: " +:+ msg)],
                    Raise (LibraryError msg))
      end
    else (out ++ [Text ("Error loading model: Model file not found: " +:+ path)],
          Raise (FileNotFoundError ("Model file not found: " +:+ path))).
Proof.
  unfold Disease.init, Disease.load_model, io_try_except. simpl.
  destruct (os_path_exists w path); [|reflexivity].
  unfold io_bind, io_lift, call.
  destruct (keras_load_model w path); reflexivity.
Qed.

Lemma pest_init_cases (w : World) (path : string) (out : list line) :
  Pest.init w path out =
    if os_path_exists w path then
      match keras_load_model w path with
      | inr m => (out, Ret {| Pest.model_path := path;
                              Pest.model := Some m;
                              Pest.class_names := Pest.class_names_literal;
                              Pest.pest_info := Pest.pest_info_literal |})
      | inl msg => (out ++ [Text ("Error loading model: " +:+ msg)],
                    Raise (LibraryError msg))
      end
    else (out ++ [Text ("Error loading model: Model file not found: " +:+ path)],
          Raise (FileNotFoundError ("Model file not found: " +:+ path))).
Proof.
  unfold Pest.init, Pest.load_model, io_try_except. simpl.
  destruct (os_path_exists w path); [|reflexivity].
  unfold io_bind, io_lift, call.
  destruct (keras_load_model w path); reflexivity.
Qed.

(** ** The entry points *)




Lemma disease_main_usage (w : World) (argv : list string) :
  length argv ≠ 3%nat →
  Disease.main w argv =
    {| stdout := [Json (error_json Disease.usage)];
       exit_status := 1; traceback := None |}.
Proof.
  intros Hlen. unfold Disease.main.
  destruct (Nat.eqb_spec (length argv) 3) as [|_]; [done|]. reflexivity.
Qed.

Lemma pest_main_usage (w : World) (argv : list string) :
  length argv ≠ 3%nat →
  Pest.main w argv =
    {| stdout := [Json (error_json Pest.usage)];
       exit_status := 1; traceback := None |}.
Proof.
  intros Hlen. unfold Pest.main.
  destruct (Nat.eqb_spec (length argv) 3) as [|_]; [done|]. reflexivity.
Qed.










(** C8.  With any number of entries in [sys.argv] other than three (the
    script and two positional arguments) the run prints the usage object
    [{"error": "Usage: ..."}] and nothing else, exits with status 1 and
    leaves no traceback; so for zero, one, or three and more positional
    arguments. *)
Theorem C8_wrong_argument_count (w : World) (argv : list string) :
  length argv ≠ 3%nat →
  Disease.main w argv =
    {| stdout := [Json (JObject [("error", JString
         "Usage: python disease_predictor.py <model_path> <image_path>")])];
       exit_status := 1; traceback := None |} ∧
  Pest.main w argv =
    {| stdout := [Json (JObject [("error", JString
         "Usage: python pest_predictor.py <model_path> <image_path>")])];
       exit_status := 1; traceback := None |}.
Proof.
  intros Hlen. split.
  - by apply disease_main_usage.
  - by apply pest_main_usage.
Qed.

Lemma C8_witness :
  length ["pest_predictor.py"; "pest_model.h5"; "leaf.jpg"; "extra"] ≠ 3%nat ∧
  exit_status (Pest.main offline
                 ["pest_predictor.py"; "pest_model.h5"; "leaf.jpg"; "extra"]) = 1%Z ∧
  exit_status (Disease.main offline
                 ["pest_predictor.py"; "pest_model.h5"; "leaf.jpg"; "extra"]) = 1%Z.
Proof.
  split; [simpl; lia|].
  destruct (C8_wrong_argument_count offline
              ["pest_predictor.py"; "pest_model.h5"; "leaf.jpg"; "extra"])
    as [Hd Hp]; [simpl; lia|].
  rewrite Hd, Hp. split; reflexivity.
Defined.

(** ** The preprocessor *)

(** Division by 255 in binary32 stays in the unit interval and is within
    half a unit in the last place (2^-25 below 1) of the exact quotient. *)
Lemma div255_in_unit_interval (b : uint8) : in_unit_interval (div255 b) = true.
Proof. destruct b; vm_compute; reflexivity. Qed.

Lemma div255_rounds_quotient (b : uint8) :
  (Qabs (float32_to_Q (div255 b) - inject_Z (Z.of_N (Byte.to_N b)) / 255)
     <= 1 # 2 ^ 25)%Q.
Proof. destruct b; vm_compute; discriminate. Qed.

Lemma normalize_values (img : image) :
  tensor_values (expand_dims0 (normalize img)) = map div255 (image_bytes img).
Proof.
  unfold tensor_values, image_bytes, expand_dims0, normalize. simpl.
  rewrite app_nil_r.
  induction img as [|row img IH]; simpl; [done|].
  rewrite !concat_app, !map_app, concat_app, map_app, IH. f_equal.
  clear IH. induction row as [|p row IH]; simpl; [done|].
  by rewrite IH.
Qed.

Lemma normalize_shape (img : image) (width height : nat) :
  has_size img width height = true →
  has_shape (expand_dims0 (normalize img)) 1 height width 3 = true.
Proof.
  unfold has_size, has_shape, expand_dims0, normalize. simpl.
  intros [Hh Hw]%andb_true_iff. rewrite length_map, Hh. simpl.
  rewrite andb_true_r. apply forallb_forall.
  intros row' [row [<- Hin]]%in_map_iff.
  rewrite forallb_forall in Hw. rewrite length_map, (Hw row Hin). simpl.
  apply forallb_forall. intros px [p [<- _]]%in_map_iff. done.
Qed.

(** C9.  For every image that [cv2.imread] decodes, of whatever size, the
    preprocessor returns a tensor of shape (1, 224, 224, 3), provided
    [cv2.resize] delivers the 224 x 224 image it is asked for.  The elements
    of the tensor are the channel bytes of the resized RGB image, each
    divided by 255 in binary32: every one lies between 0 and 1 and is the
    correctly rounded quotient. *)
Theorem C9_preprocess_shape_and_range (w : World) (path : string) (img : image) :
  cv2_imread w path = Some img →
  has_size (cv2_resize w (cvtColor_BGR2RGB img) (224, 224)%nat) 224 224 = true →
  ∃ t, preprocess_image w path = Ret t ∧
       has_shape t 1 224 224 3 = true ∧
       Forall (λ x, in_unit_interval x = true) (tensor_values t) ∧
       tensor_values t =
         map div255 (image_bytes (cv2_resize w (cvtColor_BGR2RGB img) (224, 224)%nat)) ∧
       Forall (λ b, (Qabs (float32_to_Q (div255 b)
                           - inject_Z (Z.of_N (Byte.to_N b)) / 255)
                       <= 1 # 2 ^ 25)%Q)
              (image_bytes (cv2_resize w (cvtColor_BGR2RGB img) (224, 224)%nat)).
Proof.
  intros Hread Hsize.
  exists (expand_dims0 (normalize (cv2_resize w (cvtColor_BGR2RGB img) (224, 224)%nat))).
  split; [|split; [|split; [|split]]].
  - unfold preprocess_image. rewrite Hread. reflexivity.
  - by apply normalize_shape.
  - rewrite normalize_values. apply Forall_forall.
    intros x [b [-> _]]%list_elem_of_fmap. apply div255_in_unit_interval.
  - apply normalize_values.
  - apply Forall_forall. intros b _. apply div255_rounds_quotient.
Qed.

Lemma C9_witness :
  cv2_imread studio "leaf.jpg" = Some leaf ∧
  has_size (cv2_resize studio (cvtColor_BGR2RGB leaf) (224, 224)%nat) 224 224 = true ∧
  ∃ t, preprocess_image studio "leaf.jpg" = Ret t ∧
       has_shape t 1 224 224 3 = true ∧
       Forall (λ x, in_unit_interval x = true) (tensor_values t).
Proof.
  split; [reflexivity|]. split; [vm_compute; reflexivity|].
  destruct (C9_preprocess_shape_and_range studio "leaf.jpg" leaf)
    as (t & Ht & Hshape & Hrange & _); [reflexivity | vm_compute; reflexivity |].
  exists t. split; [assumption|]. split; assumption.
Defined.

(** ** A complete run *)

Lemma disease_predict_eq (w : World) (self : Disease.DiseasePredictor)
    (path : string) (t : tensor) (m : Model) (progress : list string)
    (predictions : list (list Q)) (r : Prediction) (out : list line) :
  preprocess_image w path = Ret t →
  Disease.model self = Some m →
  m t = inr (progress, predictions) →
  Disease.compose self predictions = Ret r →
  Disease.predict w self path out = (out ++ map Text progress, Ret r).
Proof.
  intros Ht Hm Hp Hc. by rewrite disease_predict_cases, Ht, Hm, Hp, Hc.
Qed.

Lemma disease_main_success (w : World) (script path img : string)
    (m : Model) (r : Prediction) (out : list line) :
  os_path_exists w path = true →
  keras_load_model w path = inr m →
  Disease.predict w
    {| Disease.model_path := path; Disease.model := Some m;
       Disease.class_names := Disease.class_names_literal;
       Disease.disease_info := Disease.disease_info_literal |} img []
    = (out, Ret r) →
  Disease.main w [script; path; img] =
    {| stdout := out ++ [Json (result_json r)];
       exit_status := 0; traceback := None |}.
Proof.
  intros Hex Hload Hr.
  unfold Disease.main, run, io_try_except, io_bind, io_lift. simpl.
  rewrite disease_init_cases, Hex, Hload, Hr. reflexivity.
Qed.

Example studio_run :
  Disease.main studio ["disease_predictor.py"; "disease_model.h5"; "leaf.jpg"] =
    {| stdout :=
         [Text "1/1 [==============================] - 0s 45ms/step";
          Json (result_json
            {| detected_class := "Apple_Black_rot";
               confidence := 0.7;
               r_description :=
                 "Fungal disease causing black cankers on branches and fruit rot";
               r_treatment :=
                 "Prune infected areas and apply Captan or Thiophanate-methyl";
               r_pesticide := {| name := "Captan"; dosage := "2-3 g/L";
                                 type_ := "Fungicide" |} |})];
       exit_status := 0; traceback := None |}.
Proof.
  apply (disease_main_success studio _ _ _ studio_network _
           [Text "1/1 [==============================] - 0s 45ms/step"]);
    [reflexivity..|].
  eapply (disease_predict_eq studio _ _ _ studio_network
            ["1/1 [==============================] - 0s 45ms/step"]
            [[0.1; 0.7; 0.2]%Q]); [reflexivity..|].
  vm_compute. reflexivity.
Qed.

(** * Further properties of the two predictors *)

(** ** Error messages by stage *)

Lemma disease_main_loaded (w : World) (script path img : string) (m : Model) :
  os_path_exists w path = true →
  keras_load_model w path = inr m →
  Disease.main w [script; path; img] =
    match Disease.predict w
            {| Disease.model_path := path; Disease.model := Some m;
               Disease.class_names := Disease.class_names_literal;
               Disease.disease_info := Disease.disease_info_literal |} img []
    with
    | (out, Ret r) => {| stdout := out ++ [Json (result_json r)];
                         exit_status := 0; traceback := None |}
    | (out, Raise (SystemExit c)) =>
        {| stdout := out; exit_status := c; traceback := None |}
    | (out, Raise e) => {| stdout := out ++ [Json (error_json (str e))];
                           exit_status := 1; traceback := None |}
    end.
Proof.
  intros Hex Hload.
  unfold Disease.main, run, io_try_except, io_bind, io_lift. simpl.
  rewrite disease_init_cases, Hex, Hload.
  destruct (Disease.predict _ _ _ _) as [out [r|[]]]; reflexivity.
Qed.

Lemma pest_main_loaded (w : World) (script path img : string) (m : Model) :
  os_path_exists w path = true →
  keras_load_model w path = inr m →
  Pest.main w [script; path; img] =
    match Pest.predict w
            {| Pest.model_path := path; Pest.model := Some m;
               Pest.class_names := Pest.class_names_literal;
               Pest.pest_info := Pest.pest_info_literal |} img []
    with
    | (out, Ret r) => {| stdout := out ++ [Json (result_json r)];
                         exit_status := 0; traceback := None |}
    | (out, Raise (SystemExit c)) =>
        {| stdout := out; exit_status := c; traceback := None |}
    | (out, Raise e) => {| stdout := out ++ [Json (error_json (str e))];
                           exit_status := 1; traceback := None |}
    end.
Proof.
  intros Hex Hload.
  unfold Pest.main, run, io_try_except, io_bind, io_lift. simpl.
  rewrite pest_init_cases, Hex, Hload.
  destruct (Pest.predict _ _ _ _) as [out [r|[]]]; reflexivity.
Qed.

(** X1.  When [cv2.imread] returns no image, the preprocessor raises a
    [ValueError] whose message its own handler has wrapped once.  [predict]
    of either predictor wraps it a second time, whatever model the predictor
    holds and without running the network or printing anything, and a run
    whose model loads prints that message as its only output and exits with
    status 1. *)
Theorem X1_undecodable_image (w : World) (image_path : string) :
  cv2_imread w image_path = None →
  preprocess_image w image_path =
    Raise (ValueError "Error preprocessing image: Could not load image") ∧
  (∀ self out, Disease.predict w self image_path out = (out, Raise (Exception
     "Prediction error: Error preprocessing image: Could not load image"))) ∧
  (∀ self out, Pest.predict w self image_path out = (out, Raise (Exception
     "Prediction error: Error preprocessing image: Could not load image"))) ∧
  (∀ script model_path m,
     os_path_exists w model_path = true →
     keras_load_model w model_path = inr m →
     let report :=
       {| stdout := [Json (error_json
            "Prediction error: Error preprocessing image: Could not load image")];
          exit_status := 1; traceback := None |} in
     Disease.main w [script; model_path; image_path] = report ∧
     Pest.main w [script; model_path; image_path] = report).
Proof.
  intros Hnone.
  assert (preprocess_image w image_path =
            Raise (ValueError "Error preprocessing image: Could not load image"))
    as Hpre.
  { unfold preprocess_image. rewrite Hnone. reflexivity. }
  assert (∀ self out, Disease.predict w self image_path out =
            (out, Raise (Exception
      "Prediction error: Error preprocessing image: Could not load image")))
    as Hd.
  { intros self out. rewrite disease_predict_cases, Hpre. reflexivity. }
  assert (∀ self out, Pest.predict w self image_path out =
            (out, Raise (Exception
      "Prediction error: Error preprocessing image: Could not load image")))
    as Hp.
  { intros self out. rewrite pest_predict_cases, Hpre. reflexivity. }
  split; [exact Hpre|]. split; [exact Hd|]. split; [exact Hp|].
  intros script model_path m Hex Hload. cbv zeta. split.
  - rewrite (disease_main_loaded _ _ _ _ m Hex Hload), Hd. reflexivity.
  - rewrite (pest_main_loaded _ _ _ _ m Hex Hload), Hp. reflexivity.
Qed.

Lemma X1_witness :
  cv2_imread no_camera "leaf.jpg" = None ∧
  stdout (Pest.main no_camera ["pest_predictor.py"; "pest_model.h5"; "leaf.jpg"]) =
    [Json (error_json
       "Prediction error: Error preprocessing image: Could not load image")].
Proof.
  split; [reflexivity|].
  destruct (X1_undecodable_image no_camera "leaf.jpg" eq_refl)
    as (_ & _ & _ & Hmain).
  destruct (Hmain "pest_predictor.py" "pest_model.h5"
              (λ _, inr ([], [[0.5; 0.5]%Q])) eq_refl eq_refl) as [_ Hp].
  by rewrite Hp.
Defined.



(** ** What a response can contain *)

Lemma first_max_unique (v : list Q) (i j : nat) (p q : Q) :
  first_max v i p → first_max v j q → i = j ∧ p = q.
Proof.
  intros (Hi & Hmaxi & Hfi) (Hj & Hmaxj & Hfj).
  assert (i = j) as ->.
  { destruct (Nat.lt_trichotomy i j) as [Hlt | [Heq | Hlt]]; [|done|].
    - pose proof (Hfj i p Hlt Hi) as H1. pose proof (Hmaxi j q Hj) as H2.
      exfalso. apply (Qlt_irrefl p). by eapply Qlt_le_trans.
    - pose proof (Hfi j q Hlt Hj) as H1. pose proof (Hmaxj i p Hi) as H2.
      exfalso. apply (Qlt_irrefl q). by eapply Qlt_le_trans. }
  split; [done|]. congruence.
Qed.

Lemma np_argmax_inv (v : list Q) (i : nat) :
  np_argmax v = Ret i → ∃ p, first_max v i p.
Proof.
  intros Hi. destruct v as [|x rest]; [discriminate|].
  destruct (np_argmax_first_max (x :: rest)) as (i' & p & Hi' & Hmax); [done|].
  rewrite Hi in Hi'. injection Hi' as <-. by exists p.
Qed.

Lemma disease_compose_inv (self : Disease.DiseasePredictor)
    (predictions : list (list Q)) (r : Prediction) :
  Disease.compose self predictions = Ret r →
  ∃ row i l,
    predictions !! 0%nat = Some row ∧ np_argmax row = Ret i ∧
    first_max row i (confidence r) ∧
    Disease.class_names self !! i = Some l ∧ detected_class r = l ∧
    advisory_of r = if names_healthy l then Disease.healthy_record
                    else Disease.get_disease_info self l.
Proof.
  unfold Disease.compose, py_index, np_index.
  destruct (predictions !! 0%nat) as [row|] eqn:Hrow; simpl; [|discriminate].
  destruct (np_argmax row) as [i|e] eqn:Hi; simpl; [|discriminate].
  destruct (np_argmax_inv row i Hi) as [p Hmax]. pose proof Hmax as (Hp & _).
  rewrite Hp. simpl.
  destruct (Disease.class_names self !! i) as [l|] eqn:Hl; simpl; [|discriminate].
  intros [= <-]. exists row, i, l. simpl. repeat (split; [done|]).
  unfold advisory_of, names_healthy. simpl.
  by destruct (contains "healthy" (lower l)), (Disease.get_disease_info self l).
Qed.

Lemma pest_compose_inv (self : Pest.PestPredictor)
    (predictions : list (list Q)) (r : Prediction) :
  Pest.compose self predictions = Ret r →
  ∃ row i l,
    predictions !! 0%nat = Some row ∧ np_argmax row = Ret i ∧
    first_max row i (confidence r) ∧
    Pest.class_names self !! i = Some l ∧ detected_class r = display_form l ∧
    advisory_of r = Pest.get_pest_info self l.
Proof.
  unfold Pest.compose, py_index, np_index.
  destruct (predictions !! 0%nat) as [row|] eqn:Hrow; simpl; [|discriminate].
  destruct (np_argmax row) as [i|e] eqn:Hi; simpl; [|discriminate].
  destruct (np_argmax_inv row i Hi) as [p Hmax]. pose proof Hmax as (Hp & _).
  rewrite Hp. simpl.
  destruct (Pest.class_names self !! i) as [l|] eqn:Hl; simpl; [|discriminate].
  intros [= <-]. exists row, i, l. simpl. repeat (split; [done|]).
  unfold advisory_of. simpl. by destruct (Pest.get_pest_info self l).
Qed.

Lemma disease_predict_inv (w : World) (self : Disease.DiseasePredictor)
    (path : string) (r : Prediction) (out out' : list line) :
  Disease.predict w self path out = (out', Ret r) →
  ∃ img m progress predictions,
    cv2_imread w path = Some img ∧ Disease.model self = Some m ∧
    m (expand_dims0 (normalize
         (cv2_resize w (cvtColor_BGR2RGB img) (224, 224)%nat)))
      = inr (progress, predictions) ∧
    Disease.compose self predictions = Ret r ∧
    out' = out ++ map Text progress.
Proof.
  rewrite disease_predict_cases. unfold preprocess_image.
  destruct (cv2_imread w path) as [img|]; simpl; [|discriminate].
  destruct (Disease.model self) as [m|]; [|discriminate].
  destruct (m _) as [msg|[progress predictions]] eqn:Hm; [discriminate|].
  destruct (Disease.compose self predictions) as [r'|e] eqn:Hc; [|discriminate].
  intros [= <- <-]. by exists img, m, progress, predictions.
Qed.

Lemma pest_predict_inv (w : World) (self : Pest.PestPredictor)
    (path : string) (r : Prediction) (out out' : list line) :
  Pest.predict w self path out = (out', Ret r) →
  ∃ img m progress predictions,
    cv2_imread w path = Some img ∧ Pest.model self = Some m ∧
    m (expand_dims0 (normalize
         (cv2_resize w (cvtColor_BGR2RGB img) (224, 224)%nat)))
      = inr (progress, predictions) ∧
    Pest.compose self predictions = Ret r ∧
    out' = out ++ map Text progress.
Proof.
  rewrite pest_predict_cases. unfold preprocess_image.
  destruct (cv2_imread w path) as [img|]; simpl; [|discriminate].
  destruct (Pest.model self) as [m|]; [|discriminate].
  destruct (m _) as [msg|[progress predictions]] eqn:Hm; [discriminate|].
  destruct (Pest.compose self predictions) as [r'|e] eqn:Hc; [|discriminate].
  intros [= <- <-]. by exists img, m, progress, predictions.
Qed.

(** X3.  A response of [predict] comes from the first row of what the
    network returned for the preprocessed image: the index is the argmax of
    that row, the confidence is the element of the row at the index, and the
    label is the entry of the predictor's label list at the index (shown in
    display form by the pest predictor).  So a response never names a label
    outside the list, and the other rows of a batch have no influence.  All
    that [predict] has printed by then is the progress display of the
    network. *)
Theorem X3_response_provenance :
  (∀ w self path out out' r,
     Disease.predict w self path out = (out', Ret r) →
     ∃ img m progress predictions row i,
       cv2_imread w path = Some img ∧ Disease.model self = Some m ∧
       m (expand_dims0 (normalize
            (cv2_resize w (cvtColor_BGR2RGB img) (224, 224)%nat)))
         = inr (progress, predictions) ∧
       out' = out ++ map Text progress ∧
       predictions !! 0%nat = Some row ∧ np_argmax row = Ret i ∧
       row !! i = Some (confidence r) ∧
       Disease.class_names self !! i = Some (detected_class r) ∧
       detected_class r ∈ Disease.class_names self) ∧
  (∀ w self path out out' r,
     Pest.predict w self path out = (out', Ret r) →
     ∃ img m progress predictions row i l,
       cv2_imread w path = Some img ∧ Pest.model self = Some m ∧
       m (expand_dims0 (normalize
            (cv2_resize w (cvtColor_BGR2RGB img) (224, 224)%nat)))
         = inr (progress, predictions) ∧
       out' = out ++ map Text progress ∧
       predictions !! 0%nat = Some row ∧ np_argmax row = Ret i ∧
       row !! i = Some (confidence r) ∧
       Pest.class_names self !! i = Some l ∧ l ∈ Pest.class_names self ∧
       detected_class r = display_form l ∧
       advisory_of r = Pest.get_pest_info self l) ∧
  (∀ self row rest,
     Disease.compose self (row :: rest) = Disease.compose self [row]) ∧
  (∀ self row rest, Pest.compose self (row :: rest) = Pest.compose self [row]).
Proof.
  split; [|split; [|split; reflexivity]].
  - intros w self path out out' r Hr.
    destruct (disease_predict_inv w self path r out out' Hr)
      as (img & m & progress & predictions & Hread & Hm & Hnet & Hc & Hout).
    destruct (disease_compose_inv self predictions r Hc)
      as (row & i & l & Hrow & Hi & (Hp & _) & Hl & Hdc & _).
    exists img, m, progress, predictions, row, i. subst l.
    repeat (split; [done|]). by eapply list_elem_of_lookup_2.
  - intros w self path out out' r Hr.
    destruct (pest_predict_inv w self path r out out' Hr)
      as (img & m & progress & predictions & Hread & Hm & Hnet & Hc & Hout).
    destruct (pest_compose_inv self predictions r Hc)
      as (row & i & l & Hrow & Hi & (Hp & _) & Hl & Hdc & Ha).
    exists img, m, progress, predictions, row, i, l.
    repeat (split; [done|]). split; [by eapply list_elem_of_lookup_2|done].
Qed.

Lemma X3_witness :
  ∃ out r,
    Disease.predict studio
      {| Disease.model_path := "disease_model.h5";
         Disease.model := Some studio_network;
         Disease.class_names := Disease.class_names_literal;
         Disease.disease_info := Disease.disease_info_literal |}
      "leaf.jpg" [] = (out, Ret r) ∧
    detected_class r ∈ Disease.class_names_literal.
Proof.
  assert (Disease.predict studio
            {| Disease.model_path := "disease_model.h5";
               Disease.model := Some studio_network;
               Disease.class_names := Disease.class_names_literal;
               Disease.disease_info := Disease.disease_info_literal |}
            "leaf.jpg" [] =
          ([] ++ map Text ["1/1 [==============================] - 0s 45ms/step"],
           Ret {| detected_class := "Apple_Black_rot";
                  confidence := 0.7;
                  r_description :=
                    "Fungal disease causing black cankers on branches and fruit rot";
                  r_treatment :=
                    "Prune infected areas and apply Captan or Thiophanate-methyl";
                  r_pesticide := {| name := "Captan"; dosage := "2-3 g/L";
                                    type_ := "Fungicide" |} |})) as Hr.
  { eapply (disease_predict_eq studio _ _ _ studio_network
              ["1/1 [==============================] - 0s 45ms/step"]
              [[0.1; 0.7; 0.2]%Q]); [reflexivity..|].
    vm_compute. reflexivity. }
  destruct (proj1 X3_response_provenance _ _ _ _ _ _ Hr)
    as (img & m & progress & predictions & row & i
        & _ & _ & _ & _ & _ & _ & _ & _ & Hin).
  eexists _, _. split; [exact Hr | exact Hin].
Defined.

(** ** The confidence *)

Lemma Qsum_le_max (v : list Q) (p : Q) :
  (∀ j q, v !! j = Some q → (q <= p)%Q) →
  (Qsum v <= inject_Z (Z.of_nat (length v)) * p)%Q.
Proof.
  induction v as [|x v IH]; intros Hmax.
  - change (0 <= 0 * p)%Q. lra.
  - assert (x <= p)%Q as Hx by exact (Hmax 0%nat x eq_refl).
    assert (Qsum v <= inject_Z (Z.of_nat (length v)) * p)%Q as Hv.
    { apply IH. intros j q Hj. exact (Hmax (S j) q Hj). }
    change (Qsum (x :: v)) with (x + Qsum v)%Q.
    change (length (x :: v)) with (S (length v)).
    rewrite Nat2Z.inj_succ. unfold Z.succ. rewrite inject_Z_plus.
    change (inject_Z 1) with 1%Q. lra.
Qed.

Lemma first_max_bounds (v : list Q) (i : nat) (c : Q) :
  first_max v i c →
  Forall (λ q, (q <= c)%Q) v ∧
  (Forall (λ q, (0 <= q)%Q ∧ (q <= 1)%Q) v → (0 <= c)%Q ∧ (c <= 1)%Q) ∧
  ((Qsum v == 1)%Q → (1 <= inject_Z (Z.of_nat (length v)) * c)%Q).
Proof.
  intros (Hc & Hmax & _). split; [|split].
  - apply Forall_lookup. intros j q Hj. by eapply Hmax.
  - intros Hall. rewrite Forall_lookup in Hall. exact (Hall i c Hc).
  - intros Hsum. pose proof (Qsum_le_max v c Hmax) as Hle.
    rewrite Hsum in Hle. exact Hle.
Qed.

(** X4.  The confidence of a response is the largest element of the
    probability vector.  If every element lies between 0 and 1, so does the
    confidence; if the elements add up to 1, the confidence of a vector of
    [n] elements is at least 1/n (stated as 1 <= n * confidence). *)
Theorem X4_confidence_bounds (v : list Q) (r : Prediction) :
  (∃ self, Disease.compose self [v] = Ret r) ∨
  (∃ self, Pest.compose self [v] = Ret r) →
  Forall (λ q, (q <= confidence r)%Q) v ∧
  (Forall (λ q, (0 <= q)%Q ∧ (q <= 1)%Q) v →
   (0 <= confidence r)%Q ∧ (confidence r <= 1)%Q) ∧
  ((Qsum v == 1)%Q →
   (1 <= inject_Z (Z.of_nat (length v)) * confidence r)%Q).
Proof.
  intros [[self Hc] | [self Hc]].
  - destruct (disease_compose_inv self [v] r Hc)
      as (row & i & l & [= <-] & _ & Hmax & _).
    by eapply first_max_bounds.
  - destruct (pest_compose_inv self [v] r Hc)
      as (row & i & l & [= <-] & _ & Hmax & _).
    by eapply first_max_bounds.
Qed.

Lemma X4_witness :
  ∃ r, Pest.compose (Pest.new "pest_model.h5") [[0.25; 0.5; 0.25]%Q] = Ret r ∧
       (1 <= inject_Z 3 * confidence r)%Q ∧ (confidence r <= 1)%Q.
Proof.
  assert (Pest.compose (Pest.new "pest_model.h5") [[0.25; 0.5; 0.25]%Q] =
          Ret {| detected_class := "ARMYWORM"; confidence := 0.5;
                 r_description :=
                   "Caterpillars that feed on leaves and can cause severe defoliation";
                 r_treatment :=
                   "Apply Chlorantraniliprole or Spinetoram insecticides";
                 r_pesticide := {| name := "Chlorantraniliprole";
                                   dosage := "150-300 ml/ha";
                                   type_ := "Systemic Insecticide" |} |}) as Hr.
  { vm_compute. reflexivity. }
  destruct (X4_confidence_bounds [0.25; 0.5; 0.25]%Q _
              (or_intror (ex_intro _ _ Hr))) as (_ & Hunit & Hsum).
  eexists. split; [exact Hr|]. split.
  - apply Hsum. reflexivity.
  - apply Hunit. repeat constructor; discriminate.
Defined.

(** ** Vectors longer than the label list *)

Lemma first_max_app (v ext : list Q) (i : nat) (p : Q) :
  first_max v i p → Forall (λ x, (x <= p)%Q) ext → first_max (v ++ ext) i p.
Proof.
  intros (Hp & Hmax & Hfirst) Hext. split; [|split].
  - by apply lookup_app_l_Some.
  - intros j q Hj. apply lookup_app_Some in Hj as [Hj | [_ Hj]].
    + by eapply Hmax.
    + rewrite Forall_lookup in Hext. by eapply Hext.
  - intros j q Hlt Hj. apply lookup_lt_Some in Hp.
    rewrite lookup_app_l in Hj by lia. by eapply Hfirst.
Qed.

Lemma np_argmax_app (v ext : list Q) (i : nat) (p : Q) :
  np_argmax v = Ret i → v !! i = Some p →
  Forall (λ x, (x <= p)%Q) ext →
  np_argmax (v ++ ext) = Ret i.
Proof.
  intros Hi Hp Hext.
  destruct (np_argmax_inv v i Hi) as [p' Hmax].
  assert (p' = p) as -> by (destruct Hmax as (Hp' & _); congruence).
  destruct (np_argmax_first_max (v ++ ext)) as (i' & q & Hi' & Hmax').
  { destruct v; [discriminate|done]. }
  destruct (first_max_unique _ _ _ _ _ Hmax' (first_max_app v ext i p Hmax Hext))
    as [-> _].
  exact Hi'.
Qed.

(** X5.  Entries appended to a probability vector that are not greater than
    its largest element change nothing: the argmax, and with it the whole
    outcome of the result composer, response or error, stays the same.  A
    network with more outputs than the predictor has labels is therefore
    answered as if the surplus outputs were absent, as long as none of them
    is the strict maximum. *)
Theorem X5_surplus_outputs_ignored (v ext : list Q) (i : nat) (p : Q) :
  np_argmax v = Ret i → v !! i = Some p →
  Forall (λ x, (x <= p)%Q) ext →
  np_argmax (v ++ ext) = Ret i ∧
  (∀ self, Disease.compose self [v ++ ext] = Disease.compose self [v]) ∧
  (∀ self, Pest.compose self [v ++ ext] = Pest.compose self [v]).
Proof.
  intros Hi Hp Hext.
  pose proof (np_argmax_app v ext i p Hi Hp Hext) as Hi'.
  assert ((v ++ ext) !! i = Some p) as Hp' by (by apply lookup_app_l_Some).
  split; [exact Hi'|]. split; intros self.
  - unfold Disease.compose, py_index, np_index. simpl lookup. cbv beta iota.
    unfold res_bind at 1 5. rewrite Hi, Hi'. unfold res_bind at 1 4.
    rewrite Hp, Hp'. reflexivity.
  - unfold Pest.compose, py_index, np_index. simpl lookup. cbv beta iota.
    unfold res_bind at 1 5. rewrite Hi, Hi'. unfold res_bind at 1 4.
    rewrite Hp, Hp'. reflexivity.
Qed.

Lemma X5_witness :
  np_argmax [0.2; 0.6]%Q = Ret 1%nat ∧
  Forall (λ x, (x <= 0.6)%Q) [0.6; 0.1]%Q ∧
  np_argmax ([0.2; 0.6] ++ [0.6; 0.1])%Q = Ret 1%nat.
Proof.
  split; [reflexivity|].
  split; [repeat constructor; discriminate|].
  apply (X5_surplus_outputs_ignored [0.2; 0.6]%Q [0.6; 0.1]%Q 1%nat 0.6%Q);
    [reflexivity | reflexivity | repeat constructor; discriminate].
Defined.

(** ** The shipped tables *)

Lemma disease_info_keys (k : string) (a : Advisory) :
  Disease.disease_info_literal !! k = Some a →
  k ∈ Disease.class_names_literal ∧ names_healthy k = false ∧
  a ≠ Disease.fallback_record ∧ a ≠ Disease.healthy_record.
Proof.
  intros Hk. unfold Disease.disease_info_literal in Hk.
  apply elem_of_list_to_map_2 in Hk.
  repeat (apply elem_of_cons in Hk as [[= -> ->] | Hk];
          [split; [by apply (bool_decide_unpack _); vm_compute|];
           split; [reflexivity|]; split; discriminate|]).
  by apply elem_of_nil in Hk.
Qed.

(** X6.  In the disease predictor as shipped, every key of the advisory
    table is one of the 38 labels and none of the keys names a healthy
    plant, so the healthy override never replaces a record of the table.
    The labels fall into three groups: the 9 with a table entry, the 12
    healthy ones, and 17 that have neither and are answered with the generic
    "Disease detected" record.  The advisory of every response is determined
    by the group of its label. *)
Theorem X6_disease_label_groups :
  (∀ k a, Disease.disease_info_literal !! k = Some a →
          k ∈ Disease.class_names_literal ∧ names_healthy k = false) ∧
  size Disease.disease_info_literal = 9%nat ∧
  length (List.filter names_healthy Disease.class_names_literal) = 12%nat ∧
  length (List.filter
            (λ l, negb (names_healthy l) &&
                  bool_decide (Disease.disease_info_literal !! l = None))
            Disease.class_names_literal) = 17%nat ∧
  (∀ path predictions r,
     Disease.compose (Disease.new path) predictions = Ret r →
     advisory_of r =
       match Disease.disease_info_literal !! detected_class r with
       | Some a => a
       | None => if names_healthy (detected_class r)
                 then Disease.healthy_record else Disease.fallback_record
       end).
Proof.
  split; [|split; [|split; [|split]]].
  - intros k a Hk. destruct (disease_info_keys k a Hk) as (? & ? & _). done.
  - by vm_compute.
  - by vm_compute.
  - by vm_compute.
  - intros path predictions r Hc.
    destruct (disease_compose_inv _ _ _ Hc)
      as (row & i & l & _ & _ & _ & _ & Hd & Ha').
    rewrite Ha', Hd. clear Ha' Hd.
    unfold Disease.get_disease_info. simpl Disease.disease_info.
    destruct (Disease.disease_info_literal !! l) as [a|] eqn:Ha.
    + destruct (disease_info_keys _ _ Ha) as (_ & -> & _). reflexivity.
    + reflexivity.
Qed.

Lemma pest_info_keys (k : string) (a : Advisory) :
  Pest.pest_info_literal !! k = Some a → k ∈ Pest.class_names_literal.
Proof.
  intros Hk. unfold Pest.pest_info_literal in Hk.
  apply elem_of_list_to_map_2 in Hk.
  repeat (apply elem_of_cons in Hk as [[= -> ->] | Hk];
          [by apply (bool_decide_unpack _); vm_compute|]).
  by apply elem_of_nil in Hk.
Qed.

Lemma display_form_injective_on_labels (l1 l2 : string) :
  l1 ∈ Pest.class_names_literal → l2 ∈ Pest.class_names_literal →
  display_form l1 = display_form l2 → l1 = l2.
Proof.
  intros H1 H2. unfold Pest.class_names_literal in H1, H2.
  repeat (apply elem_of_cons in H1 as [-> | H1]);
    try (by apply elem_of_nil in H1);
    repeat (apply elem_of_cons in H2 as [-> | H2]);
    try (by apply elem_of_nil in H2);
    vm_compute; intros Heq; first [reflexivity | discriminate Heq].
Qed.

(** X7.  In the pest predictor as shipped, the keys of the advisory table
    are exactly the 10 labels, and no two labels have the same display form.
    The [detected_class] of a response therefore identifies the predicted
    label: two responses that show the same class carry the same advisory. *)
Theorem X7_pest_class_identifies_advisory :
  (∀ k, is_Some (Pest.pest_info_literal !! k) ↔ k ∈ Pest.class_names_literal) ∧
  (∀ l1 l2, l1 ∈ Pest.class_names_literal → l2 ∈ Pest.class_names_literal →
            display_form l1 = display_form l2 → l1 = l2) ∧
  (∀ path1 path2 predictions1 predictions2 r1 r2,
     Pest.compose (Pest.new path1) predictions1 = Ret r1 →
     Pest.compose (Pest.new path2) predictions2 = Ret r2 →
     detected_class r1 = detected_class r2 →
     advisory_of r1 = advisory_of r2).
Proof.
  split; [|split].
  - intros k. split.
    + intros [a Ha]. by eapply pest_info_keys.
    + intros Hk. unfold Pest.class_names_literal in Hk.
      repeat (apply elem_of_cons in Hk as [-> | Hk];
              [eexists; vm_compute; reflexivity|]).
      by apply elem_of_nil in Hk.
  - exact display_form_injective_on_labels.
  - intros path1 path2 predictions1 predictions2 r1 r2 H1 H2 Heq.
    destruct (pest_compose_inv _ _ _ H1)
      as (row1 & i1 & l1 & _ & _ & _ & Hl1 & Hd1 & ->).
    destruct (pest_compose_inv _ _ _ H2)
      as (row2 & i2 & l2 & _ & _ & _ & Hl2 & Hd2 & ->).
    assert (l1 = l2) as ->; [|reflexivity].
    apply display_form_injective_on_labels.
    + by eapply list_elem_of_lookup_2.
    + by eapply list_elem_of_lookup_2.
    + congruence.
Qed.

Lemma X7_witness :
  ∃ r1 r2,
    Pest.compose (Pest.new "a.h5") [[0.9; 0.1]%Q] = Ret r1 ∧
    Pest.compose (Pest.new "b.h5") [[0.6; 0.2; 0.2]%Q] = Ret r2 ∧
    detected_class r1 = detected_class r2 ∧
    advisory_of r1 = advisory_of r2.
Proof.
  destruct (Pest.compose (Pest.new "a.h5") [[0.9; 0.1]%Q]) as [r1|e1] eqn:H1;
    [|vm_compute in H1; discriminate H1].
  destruct (Pest.compose (Pest.new "b.h5") [[0.6; 0.2; 0.2]%Q]) as [r2|e2] eqn:H2;
    [|vm_compute in H2; discriminate H2].
  assert (detected_class r1 = detected_class r2) as Heq.
  { vm_compute in H1, H2. injection H1 as <-. injection H2 as <-. reflexivity. }
  exists r1, r2. split; [reflexivity|]. split; [reflexivity|]. split; [exact Heq|].
  exact (proj2 (proj2 X7_pest_class_identifies_advisory)
           "a.h5" "b.h5" _ _ r1 r2 H1 H2 Heq).
Defined.

Lemma X6_witness :
  Disease.disease_info_literal !! "Corn_Common_rust" =
    Some {| description := "Fungal disease causing small oval rust pustules on leaves";
            treatment := "Apply Chlorothalonil or Propiconazole fungicides";
            pesticide := Disease.fungicide "Chlorothalonil" "2-3 ml/L" |} ∧
  "Corn_Common_rust" ∈ Disease.class_names_literal ∧
  names_healthy "Corn_Common_rust" = false.
Proof.
  assert (Disease.disease_info_literal !! "Corn_Common_rust" =
    Some {| description := "Fungal disease causing small oval rust pustules on leaves";
            treatment := "Apply Chlorothalonil or Propiconazole fungicides";
            pesticide := Disease.fungicide "Chlorothalonil" "2-3 ml/L" |}) as Hk.
  { vm_compute. reflexivity. }
  split; [exact Hk|].
  exact (proj1 X6_disease_label_groups _ _ Hk).
Defined.

(** ** Text of the labels *)

Lemma str_map_get (f : ascii → ascii) (s : string) (n : nat) :
  String.get n (str_map f s) = f <$> String.get n s.
Proof.
  revert n. induction s as [|c s IH]; intros [|n]; simpl; done.
Qed.

Lemma str_map_length (f : ascii → ascii) (s : string) :
  String.length (str_map f s) = String.length s.
Proof. induction s as [|c s IH]; simpl; [done|]. by rewrite IH. Qed.

Lemma str_map_compose (f g : ascii → ascii) (s : string) :
  str_map f (str_map g s) = str_map (λ c, f (g c)) s.
Proof. induction s as [|c s IH]; simpl; [done|]. by rewrite IH. Qed.

Lemma str_map_ext (f g : ascii → ascii) (s : string) :
  (∀ c, f c = g c) → str_map f s = str_map g s.
Proof. intros H. induction s as [|c s IH]; simpl; [done|]. by rewrite H, IH. Qed.

Lemma append_cons (c : ascii) (s t : string) :
  String c s +:+ t = String c (s +:+ t).
Proof. reflexivity. Qed.

Lemma str_map_app (f : ascii → ascii) (s t : string) :
  str_map f (s +:+ t) = str_map f s +:+ str_map f t.
Proof.
  induction s as [|c s IH]; [done|].
  rewrite append_cons. simpl. by rewrite IH, append_cons.
Qed.

Lemma display_form_map (l : string) : display_form l = str_map display_char l.
Proof.
  unfold display_form, replace, upper. rewrite str_map_compose.
  apply str_map_ext. intros c. unfold display_char.
  by rewrite ascii_upper_underscore.
Qed.

Lemma display_char_facts (c : ascii) :
  display_char (display_char c) = display_char c ∧
  display_char c ≠ "_"%char ∧
  ((97 <=? N_of_ascii (display_char c)) &&
   (N_of_ascii (display_char c) <=? 122))%N = false ∧
  ((N_of_ascii c <? 128)%N = true →
   (N_of_ascii (display_char c) <? 128)%N = true).
Proof. destruct c as [[] [] [] [] [] [] [] []]; vm_compute; done. Qed.

Lemma is_ascii_str_map (f : ascii → ascii) (s : string) :
  (∀ c, (N_of_ascii c <? 128)%N = true → (N_of_ascii (f c) <? 128)%N = true) →
  is_ascii s = true → is_ascii (str_map f s) = true.
Proof.
  intros Hf. induction s as [|c s IH]; simpl; [done|].
  intros [Hc Hs]%andb_true_iff. by rewrite (Hf c Hc), (IH Hs).
Qed.

(** X8.  For a label of ASCII characters, the display form has the length
    of the label, is again ASCII, contains no underscore and none of the
    letters "a" to "z", and applying the transformation a second time
    changes nothing. *)
Theorem X8_display_form_shape (l : string) :
  is_ascii l = true →
  String.length (display_form l) = String.length l ∧
  is_ascii (display_form l) = true ∧
  display_form (display_form l) = display_form l ∧
  (∀ n c, String.get n (display_form l) = Some c →
          c ≠ "_"%char ∧
          ((97 <=? N_of_ascii c) && (N_of_ascii c <=? 122))%N = false) ∧
  (∀ self (v : list Q) i,
     np_argmax v = Ret i → Pest.class_names self !! i = Some l →
     ∃ r, Pest.compose self [v] = Ret r ∧
          String.length (detected_class r) = String.length l ∧
          (∀ n c, String.get n (detected_class r) = Some c →
                  c ≠ "_"%char ∧
                  ((97 <=? N_of_ascii c) && (N_of_ascii c <=? 122))%N = false)).
Proof.
  intros Hascii.
  assert (∀ n c, String.get n (display_form l) = Some c →
                 c ≠ "_"%char ∧
                 ((97 <=? N_of_ascii c) && (N_of_ascii c <=? 122))%N = false)
    as Hchars.
  { intros n c. rewrite display_form_map, str_map_get.
    destruct (String.get n l) as [c'|]; simpl; [|discriminate].
    intros [= <-]. destruct (display_char_facts c') as (_ & ? & ? & _). done. }
  assert (String.length (display_form l) = String.length l) as Hlen.
  { rewrite display_form_map. apply str_map_length. }
  split; [exact Hlen|]. split; [|split; [|split; [exact Hchars|]]].
  - rewrite display_form_map. apply is_ascii_str_map; [|exact Hascii].
    intros c. by destruct (display_char_facts c) as (_ & _ & _ & ?).
  - rewrite !display_form_map, str_map_compose. apply str_map_ext.
    intros c. by destruct (display_char_facts c) as (-> & _).
  - intros self v i Hi Hl.
    destruct (np_argmax_inv v i Hi) as (p & Hp & _).
    destruct (pest_compose_at self v i p l Hi Hp Hl) as (r & Hr & Hdc & _).
    exists r. split; [done|]. rewrite Hdc. split; [exact Hlen | exact Hchars].
Qed.

Lemma X8_witness :
  is_ascii "stem_borer" = true ∧
  np_argmax [0; 0; 0; 0; 0; 0; 0; 0; 0.4; 0.6]%Q = Ret 9%nat ∧
  ∃ r, Pest.compose (Pest.new "pest_model.h5")
         [[0; 0; 0; 0; 0; 0; 0; 0; 0.4; 0.6]%Q] = Ret r ∧
       String.length (detected_class r) = 10%nat.
Proof.
  split; [reflexivity|]. split; [reflexivity|].
  destruct (proj2 (proj2 (proj2 (proj2
              (X8_display_form_shape "stem_borer" eq_refl))))
              (Pest.new "pest_model.h5")
              [0; 0; 0; 0; 0; 0; 0; 0; 0.4; 0.6]%Q 9%nat eq_refl eq_refl)
    as (r & Hr & Hlen & _).
  exists r. split; [exact Hr | exact Hlen].
Defined.

Lemma prefix_spec (s hay : string) :
  String.prefix s hay = true ↔ ∃ post, hay = s +:+ post.
Proof.
  revert hay. induction s as [|c s IH]; intros hay.
  - split; [|by destruct hay]. intros _. by exists hay.
  - destruct hay as [|c' hay]; simpl;
      [split; [discriminate | intros [? [=]]]|].
    destruct (ascii_dec c c') as [<-|Hne].
    + rewrite IH. split; intros [post Hpost]; exists post;
        rewrite append_cons in *; congruence.
    + split; [discriminate|]. intros [post Hpost].
      rewrite append_cons in Hpost. congruence.
Qed.

Lemma contains_spec (needle hay : string) :
  contains needle hay = true ↔ ∃ pre post, hay = pre +:+ needle +:+ post.
Proof.
  induction hay as [|c hay IH].
  - change (contains needle "") with (String.prefix needle "" || false).
    rewrite orb_false_r, prefix_spec. split.
    + intros [post Hpost]. by exists "", post.
    + intros (pre & post & Heq). destruct pre; [by exists post|discriminate].
  - change (contains needle (String c hay))
      with (String.prefix needle (String c hay) || contains needle hay).
    rewrite orb_true_iff, prefix_spec, IH. split.
    + intros [[post Hpost] | (pre & post & Heq)].
      * by exists "", post.
      * exists (String c pre), post. by rewrite append_cons, Heq.
    + intros (pre & post & Heq). destruct pre as [|c' pre].
      * left. by exists post.
      * right. rewrite append_cons in Heq. injection Heq as _ Heq.
        by exists pre, post.
Qed.

Lemma ascii_lower_upper (c : ascii) :
  ascii_lower (ascii_upper c) = ascii_lower c ∧
  ascii_lower (ascii_lower c) = ascii_lower c.
Proof. destruct c as [[] [] [] [] [] [] [] []]; vm_compute; done. Qed.

(** X9.  The healthy test of the disease composer holds exactly when the
    lower-cased label has "healthy" as a substring.  For a label of ASCII
    characters it does not depend on the letter case of the label, and it
    holds for every label that has "healthy" anywhere inside it in any mix
    of cases, so also for a label such as "Leaf_UnHealthy": the response
    for such a label carries the no-treatment record. *)
Theorem X9_healthy_test_is_substring_test :
  (∀ l, names_healthy l = true ↔
        ∃ pre post, lower l = pre +:+ "healthy" +:+ post) ∧
  (∀ l, is_ascii l = true →
        names_healthy (upper l) = names_healthy l ∧
        names_healthy (lower l) = names_healthy l) ∧
  (∀ self (v : list Q) i pre mid post,
     lower mid = "healthy" →
     np_argmax v = Ret i →
     Disease.class_names self !! i = Some (pre +:+ mid +:+ post) →
     ∃ r, Disease.compose self [v] = Ret r ∧
          advisory_of r = Disease.healthy_record).
Proof.
  split; [|split].
  - intros l. unfold names_healthy. apply contains_spec.
  - intros l _. unfold names_healthy, lower, upper.
    rewrite !str_map_compose.
    split; f_equal; apply str_map_ext; intros c;
      by destruct (ascii_lower_upper c).
  - intros self v i pre mid post Hmid Hi Hl.
    destruct (np_argmax_inv v i Hi) as (p & Hp & _).
    destruct (disease_compose_at self v i p _ Hi Hp Hl)
      as (r & Hr & _ & _ & Hyes & _).
    exists r. split; [done|].
    destruct Hyes as (Hd & Ht & Hpe).
    + apply contains_spec. exists (lower pre), (lower post).
      unfold lower in *. by rewrite !str_map_app, Hmid.
    + by apply advisory_of_fields.
Qed.

Lemma X9_witness :
  is_ascii "Leaf_UnHealthy" = true ∧
  names_healthy (upper "Leaf_UnHealthy") = names_healthy "Leaf_UnHealthy" ∧
  lower "Healthy" = "healthy" ∧
  ∃ r, Disease.compose
         {| Disease.model_path := "m.h5"; Disease.model := None;
            Disease.class_names := ["Leaf_spot"; "Leaf_UnHealthy"];
            Disease.disease_info := ∅ |} [[0.1; 0.9]%Q] = Ret r ∧
       advisory_of r = Disease.healthy_record.
Proof.
  split; [reflexivity|].
  split; [exact (proj1 (proj1 (proj2 X9_healthy_test_is_substring_test)
                          "Leaf_UnHealthy" eq_refl))|].
  split; [reflexivity|].
  apply (proj2 (proj2 X9_healthy_test_is_substring_test)
           {| Disease.model_path := "m.h5"; Disease.model := None;
              Disease.class_names := ["Leaf_spot"; "Leaf_UnHealthy"];
              Disease.disease_info := ∅ |}
           [0.1; 0.9]%Q 1%nat "Leaf_Un" "Healthy" "");
    reflexivity.
Defined.

(** ** The tensor *)

Lemma all_bytes_nth (b : uint8) :
  nth (N.to_nat (Byte.to_N b)) all_bytes Byte.x00 = b.
Proof. destruct b; vm_compute; reflexivity. Qed.

Lemma normalised_bytes_complete (b : uint8) :
  In (Byte.to_N b, div255 b) normalised_bytes.
Proof.
  unfold normalised_bytes.
  apply (in_map (λ b, (Byte.to_N b, div255 b))).
  pose proof (nth_In all_bytes Byte.x00 (n := N.to_nat (Byte.to_N b))) as H.
  rewrite all_bytes_nth in H. apply H.
  pose proof (Byte.to_N_bounded b) as Hb.
  change (length all_bytes) with 256%nat. lia.
Qed.

Lemma normalised_bytes_increasing :
  forallb (λ x : N * float32,
    forallb (λ y : N * float32,
      implb (x.1 <? y.1)%N (SFltb x.2 y.2) &&
      implb (x.1 =? y.1)%N (negb (SFltb x.2 y.2)))
      normalised_bytes) normalised_bytes = true.
Proof. vm_compute. reflexivity. Qed.

Lemma div255_compare (b1 b2 : uint8) :
  ((Byte.to_N b1 < Byte.to_N b2)%N → SFltb (div255 b1) (div255 b2) = true) ∧
  (b1 = b2 → SFltb (div255 b1) (div255 b2) = false).
Proof.
  pose proof normalised_bytes_increasing as H.
  rewrite forallb_forall in H.
  specialize (H _ (normalised_bytes_complete b1)).
  rewrite forallb_forall in H.
  specialize (H _ (normalised_bytes_complete b2)).
  simpl in H. apply andb_true_iff in H as [Hlt Heq]. split.
  - intros Hb. apply N.ltb_lt in Hb. rewrite Hb in Hlt. exact Hlt.
  - intros ->. rewrite N.eqb_refl in Heq. simpl in Heq.
    by apply negb_true_iff in Heq.
Qed.

(** X10.  Normalisation keeps the order of the pixel values: division by 255
    in binary32 sends 0 to 0.0 and 255 to exactly 1.0, is strictly
    increasing, and so never maps two different bytes to the same tensor
    value. *)
Theorem X10_normalisation_is_strictly_increasing :
  div255 Byte.x00 = S754_zero false ∧
  div255 Byte.xff = float32_of_N 1 ∧
  (∀ b1 b2, (Byte.to_N b1 < Byte.to_N b2)%N →
            SFltb (div255 b1) (div255 b2) = true) ∧
  (∀ b1 b2, div255 b1 = div255 b2 → b1 = b2).
Proof.
  split; [reflexivity|]. split; [reflexivity|]. split.
  - intros b1 b2. apply div255_compare.
  - intros b1 b2 Heq.
    assert (SFltb (div255 b1) (div255 b2) = false) as Hno.
    { rewrite Heq. by apply div255_compare. }
    assert (SFltb (div255 b2) (div255 b1) = false) as Hno'.
    { rewrite Heq. by apply div255_compare. }
    destruct (N.lt_trichotomy (Byte.to_N b1) (Byte.to_N b2)) as [Hlt | [He | Hlt]].
    + apply div255_compare in Hlt. congruence.
    + apply (f_equal Byte.of_N) in He. rewrite !Byte.of_to_N in He. congruence.
    + apply div255_compare in Hlt. congruence.
Qed.

Lemma X10_witness :
  (Byte.to_N Byte.x7f < Byte.to_N Byte.x80)%N ∧
  SFltb (div255 Byte.x7f) (div255 Byte.x80) = true.
Proof.
  split; [reflexivity|].
  apply (proj1 (proj2 (proj2 X10_normalisation_is_strictly_increasing))).
  reflexivity.
Defined.

Lemma lookup_map {A B : Type} (f : A → B) (l : list A) (i : nat) :
  map f l !! i = f <$> l !! i.
Proof.
  revert i. induction l as [|a l IH]; intros [|i]; simpl; done.
Qed.

Lemma cvtColor_involutive (img : image) :
  cvtColor_BGR2RGB (cvtColor_BGR2RGB img) = img.
Proof.
  unfold cvtColor_BGR2RGB. rewrite map_map.
  rewrite <- (map_id img) at 2. apply map_ext. intros row.
  rewrite map_map. rewrite <- (map_id row) at 2. apply map_ext.
  by intros [].
Qed.

Lemma cvtColor_has_size (img : image) (width height : nat) :
  has_size (cvtColor_BGR2RGB img) width height = has_size img width height.
Proof.
  unfold has_size, cvtColor_BGR2RGB. rewrite length_map. f_equal.
  induction img as [|row img IH]; simpl; [done|].
  by rewrite length_map, IH.
Qed.

(** X11.  The colour conversion exchanges the first and the third channel
    of every pixel, keeps the size of the image and undoes itself when
    applied twice.  Whenever the resize returns the converted image
    unchanged, the tensor holds, at row [y] and column [x] of its single
    batch entry, the three channels of the decoded pixel in reverse storage
    order, each divided by 255. *)
Theorem X11_tensor_channel_order :
  (∀ img, cvtColor_BGR2RGB (cvtColor_BGR2RGB img) = img) ∧
  (∀ img width height,
     has_size (cvtColor_BGR2RGB img) width height = has_size img width height) ∧
  (∀ w path img,
     cv2_imread w path = Some img →
     cv2_resize w (cvtColor_BGR2RGB img) (224, 224)%nat = cvtColor_BGR2RGB img →
     ∃ im, preprocess_image w path = Ret [im] ∧
           length im = length img ∧
           ∀ y x row p,
             img !! y = Some row → row !! x = Some p →
             ∃ trow, im !! y = Some trow ∧
                     trow !! x = Some [div255 (ch2 p); div255 (ch1 p);
                                       div255 (ch0 p)]).
Proof.
  split; [exact cvtColor_involutive|]. split; [exact cvtColor_has_size|].
  intros w path img Hread Hsame.
  exists (normalize (cvtColor_BGR2RGB img)). split; [|split].
  - unfold preprocess_image. rewrite Hread. simpl. by rewrite Hsame.
  - unfold normalize, cvtColor_BGR2RGB. by rewrite !length_map.
  - intros y x row p Hrow Hp.
    unfold normalize, cvtColor_BGR2RGB. unfold image in *.
    eexists. split.
    + rewrite !lookup_map, Hrow. reflexivity.
    + rewrite !lookup_map, Hp. reflexivity.
Qed.

Lemma X11_witness :
  cv2_imread same_size "leaf.jpg" = Some leaf ∧
  cv2_resize same_size (cvtColor_BGR2RGB leaf) (224, 224)%nat
    = cvtColor_BGR2RGB leaf ∧
  ∃ im, preprocess_image same_size "leaf.jpg" = Ret [im] ∧ length im = 2%nat.
Proof.
  split; [reflexivity|]. split; [reflexivity|].
  destruct (proj2 (proj2 X11_tensor_channel_order) same_size "leaf.jpg" leaf
              eq_refl eq_refl) as (im & Hpre & Hlen & _).
  exists im. split; [exact Hpre | exact Hlen].
Defined.

(** ** Construction of a predictor *)



(** * Properties of the training script *)

(** ** A missing dataset *)

Lemma disease_missing_run (w : Trainer.Env) (self : Trainer.ModelTrainer)
    (tr : list Trainer.event) :
  Trainer.path_exists w "datasets/plant_disease/train" = false →
  Trainer.train_disease_model w self tr =
    match Trainer.mkdir w "datasets" with
    | inr _ => (tr ++ disease_dataset_missing, Ret None)
    | inl msg => (tr ++ take 3 disease_dataset_missing, Raise (LibraryError msg))
    end.
Proof.
  intros Hex.
  unfold Trainer.train_disease_model, Trainer.download_dataset, Trainer.bind,
    Trainer.print, Trainer.perform, Trainer.ret.
  rewrite Hex. simpl.
  destruct (Trainer.mkdir w "datasets") as [msg|[]]; simpl;
    rewrite <- ?app_assoc; reflexivity.
Qed.

Lemma pest_missing_run (w : Trainer.Env) (self : Trainer.ModelTrainer)
    (tr : list Trainer.event) :
  Trainer.path_exists w "datasets/pest/train" = false →
  Trainer.train_pest_model w self tr =
    match Trainer.mkdir w "datasets" with
    | inr _ => (tr ++ pest_dataset_missing, Ret None)
    | inl msg => (tr ++ take 3 pest_dataset_missing, Raise (LibraryError msg))
    end.
Proof.
  intros Hex.
  unfold Trainer.train_pest_model, Trainer.download_dataset, Trainer.bind,
    Trainer.print, Trainer.perform, Trainer.ret.
  rewrite Hex. simpl.
  destruct (Trainer.mkdir w "datasets") as [msg|[]]; simpl;
    rewrite <- ?app_assoc; reflexivity.
Qed.

(** X13.  When the training directory of a model does not exist, the
    training method builds and trains nothing.  It announces itself,
    reports the missing dataset, creates the directory "datasets", prints
    where to download the data and returns [None].  If the directory cannot
    be created, the method raises right there and the download instructions
    are never printed. *)
Theorem X13_missing_dataset (w : Trainer.Env) (self : Trainer.ModelTrainer)
    (tr : list Trainer.event) :
  (Trainer.path_exists w "datasets/plant_disease/train" = false →
   (Trainer.mkdir w "datasets" = inr tt →
    Trainer.train_disease_model w self tr =
      (tr ++ disease_dataset_missing, Ret None)) ∧
   (∀ msg, Trainer.mkdir w "datasets" = inl msg →
    Trainer.train_disease_model w self tr =
      (tr ++ [Trainer.Print "Training Disease Detection Model...";
              Trainer.Print "Dataset not found. Please download the dataset first.";
              Trainer.Mkdir "datasets"],
       Raise (LibraryError msg)))) ∧
  (Trainer.path_exists w "datasets/pest/train" = false →
   (Trainer.mkdir w "datasets" = inr tt →
    Trainer.train_pest_model w self tr =
      (tr ++ pest_dataset_missing, Ret None)) ∧
   (∀ msg, Trainer.mkdir w "datasets" = inl msg →
    Trainer.train_pest_model w self tr =
      (tr ++ [Trainer.Print "Training Pest Detection Model...";
              Trainer.Print "Dataset not found. Please download the dataset first.";
              Trainer.Mkdir "datasets"],
       Raise (LibraryError msg)))) ∧
  existsb touches_model (disease_dataset_missing ++ pest_dataset_missing) = false.
Proof.
  split; [|split; [|reflexivity]].
  - intros Hex. rewrite (disease_missing_run w self tr Hex).
    split; [intros ->; reflexivity | intros msg ->; reflexivity].
  - intros Hex. rewrite (pest_missing_run w self tr Hex).
    split; [intros ->; reflexivity | intros msg ->; reflexivity].
Qed.

Lemma X13_witness :
  Trainer.path_exists (bare "1") "datasets/plant_disease/train" = false ∧
  Trainer.mkdir (bare "1") "datasets" = inr tt ∧
  Trainer.train_disease_model (bare "1") Trainer.new [] =
    (disease_dataset_missing, Ret None) ∧
  Trainer.train_pest_model (read_only "2") Trainer.new [] =
    (take 3 pest_dataset_missing,
     Raise (LibraryError "Read-only file system: 'datasets'")).
Proof.
  split; [reflexivity|]. split; [reflexivity|]. split.
  - exact (proj1 (proj1 (X13_missing_dataset (bare "1") Trainer.new []) eq_refl)
             eq_refl).
  - exact (proj2 (proj1 (proj2 (X13_missing_dataset (read_only "2") Trainer.new []))
                    eq_refl) _ eq_refl).
Defined.

(** ** The menu *)

Section Orderly.

Context {A B : Type}.

Lemma orderly_ret (a : A) : orderly (Trainer.ret a).
Proof.
  intros tr. exists []. simpl. rewrite app_nil_r.
  split; [done|]. split; [apply not_elem_of_nil | discriminate].
Qed.

Lemma orderly_perform (ev : Trainer.event) (r : external A) :
  ev ≠ completed → orderly (Trainer.perform ev r).
Proof.
  intros Hev tr. exists [ev]. simpl. split; [done|]. split.
  - intros Hin%list_elem_of_singleton. congruence.
  - destruct r as [msg|a]; simpl; [|discriminate].
    intros e [= <-]. by exists msg.
Qed.

Lemma orderly_bind (m : Trainer.T A) (k : A → Trainer.T B) :
  orderly m → (∀ a, orderly (k a)) → orderly (Trainer.bind m k).
Proof.
  intros Hm Hk tr. unfold Trainer.bind.
  destruct (Hm tr) as (evs & Htr & Hno & Hexn).
  destruct (m tr) as [tr' [a|e]]; simpl in *; subst tr'.
  - destruct (Hk a (tr ++ evs)) as (evs' & Htr' & Hno' & Hexn').
    exists (evs ++ evs'). rewrite Htr', app_assoc.
    split; [done|]. split; [|done].
    rewrite elem_of_app. tauto.
  - exists evs. simpl. split; [done|]. split; [done|].
    intros e' [= <-]. by apply Hexn.
Qed.

End Orderly.

Lemma orderly_print (s : string) :
  String.get 0 s ≠ Some (ascii_of_nat 10) → orderly (Trainer.print s).
Proof.
  intros Hs. apply orderly_perform. intros [= ->]. by apply Hs.
Qed.

Ltac orderly_step :=
  first
    [ apply orderly_ret
    | apply orderly_print; cbv -[Trainer.str_of_nat]; discriminate
    | apply orderly_perform; discriminate
    | apply orderly_bind; [|intros ?] ].

Lemma orderly_download_dataset (w : Trainer.Env) (self : Trainer.ModelTrainer)
    (dataset_type : string) :
  orderly (Trainer.download_dataset w self dataset_type).
Proof.
  unfold Trainer.download_dataset.
  apply orderly_bind; [orderly_step | intros _].
  destruct (String.eqb dataset_type "disease"); [repeat orderly_step|].
  destruct (String.eqb dataset_type "pest"); repeat orderly_step.
Qed.

Lemma orderly_create_model (w : Trainer.Env) (self : Trainer.ModelTrainer)
    (num_classes : nat) (model_name : string) :
  orderly (Trainer.create_model w self num_classes model_name).
Proof. unfold Trainer.create_model. repeat orderly_step. Qed.

Lemma orderly_prepare_data_generators (w : Trainer.Env)
    (self : Trainer.ModelTrainer) (data_dir : string) :
  orderly (Trainer.prepare_data_generators w self data_dir).
Proof. unfold Trainer.prepare_data_generators. repeat orderly_step. Qed.

Lemma orderly_train_disease_model (w : Trainer.Env) (self : Trainer.ModelTrainer) :
  orderly (Trainer.train_disease_model w self).
Proof.
  unfold Trainer.train_disease_model.
  apply orderly_bind; [orderly_step | intros _].
  destruct (negb _).
  - apply orderly_bind; [orderly_step | intros _].
    apply orderly_bind; [apply orderly_download_dataset | intros _].
    orderly_step.
  - apply orderly_bind; [apply orderly_prepare_data_generators|].
    intros [train_gen val_gen].
    apply orderly_bind; [orderly_step | intros _].
    apply orderly_bind; [orderly_step | intros _].
    apply orderly_bind; [apply orderly_create_model | intros model].
    repeat orderly_step.
Qed.

Lemma orderly_train_pest_model (w : Trainer.Env) (self : Trainer.ModelTrainer) :
  orderly (Trainer.train_pest_model w self).
Proof.
  unfold Trainer.train_pest_model.
  apply orderly_bind; [orderly_step | intros _].
  destruct (negb _).
  - apply orderly_bind; [orderly_step | intros _].
    apply orderly_bind; [apply orderly_download_dataset | intros _].
    orderly_step.
  - apply orderly_bind; [apply orderly_prepare_data_generators|].
    intros [train_gen val_gen].
    apply orderly_bind; [orderly_step | intros _].
    apply orderly_bind; [orderly_step | intros _].
    apply orderly_bind; [apply orderly_create_model | intros model].
    repeat orderly_step.
Qed.

Lemma orderly_create_dummy_models (w : Trainer.Env) :
  orderly (Trainer.create_dummy_models w).
Proof. unfold Trainer.create_dummy_models. repeat orderly_step. Qed.

Lemma orderly_dispatch (w : Trainer.Env) (choice : string) :
  orderly (dispatch w choice).
Proof.
  unfold dispatch.
  destruct (String.eqb choice "1").
  { apply orderly_bind; [apply orderly_train_disease_model | intros _].
    orderly_step. }
  destruct (String.eqb choice "2").
  { apply orderly_bind; [apply orderly_train_pest_model | intros _].
    orderly_step. }
  destruct (String.eqb choice "3"); [apply orderly_create_dummy_models|].
  destruct (String.eqb choice "4"); [|orderly_step].
  apply orderly_bind; [apply orderly_train_disease_model | intros _].
  apply orderly_bind; [apply orderly_train_pest_model | intros _].
  orderly_step.
Qed.

Lemma bind_perform {A B : Type} (ev : Trainer.event) (r : external A)
    (k : A → Trainer.T B) (tr : list Trainer.event) :
  Trainer.bind (Trainer.perform ev r) k tr =
    match r with
    | inr a => k a (tr ++ [ev])
    | inl msg => (tr ++ [ev], Raise (LibraryError msg))
    end.
Proof. unfold Trainer.bind, Trainer.perform. by destruct r. Qed.

Lemma bind_print {B : Type} (s : string) (k : unit → Trainer.T B)
    (tr : list Trainer.event) :
  Trainer.bind (Trainer.print s) k tr = k tt (tr ++ [Trainer.Print s]).
Proof. reflexivity. Qed.

Lemma main_cases (w : Trainer.Env) :
  Trainer.main w =
    match Trainer.input w Trainer.prompt with
    | inl msg => {| Trainer.trace := opening; Trainer.exit_status := 1;
                    Trainer.traceback := Some (LibraryError msg) |}
    | inr choice =>
        match dispatch w choice opening with
        | (tr, Ret _) => {| Trainer.trace := tr ++ [completed];
                            Trainer.exit_status := 0;
                            Trainer.traceback := None |}
        | (tr, Raise e) => {| Trainer.trace := tr; Trainer.exit_status := 1;
                              Trainer.traceback := Some e |}
        end
    end.
Proof.
  unfold Trainer.main. cbv zeta.
  rewrite !bind_print, bind_perform.
  destruct (Trainer.input w Trainer.prompt) as [msg|choice]; [reflexivity|].
  fold (dispatch w choice). unfold Trainer.bind at 1.
  change ((([] ++
             [Trainer.Print "Plant Disease and Pest Detection Model Training"])
            ++ [Trainer.Print (Trainer.str_repeat "=" 50)])
           ++ [Trainer.Input Trainer.prompt]) with opening.
  destruct (dispatch w choice opening) as [tr [[]|e]]; reflexivity.
Qed.

(** X14.  When the text typed at the menu is none of "1", "2", "3" and "4"
    (so also for the empty line or " 1"), the script builds, trains and
    writes nothing: after the title, the rule of 50 "=" and the menu it
    prints "Invalid choice!" and then, all the same, "Training completed!",
    and it ends with status 0. *)
Theorem X14_invalid_choice (w : Trainer.Env) (choice : string) :
  Trainer.input w Trainer.prompt = inr choice →
  choice ≠ "1" → choice ≠ "2" → choice ≠ "3" → choice ≠ "4" →
  Trainer.main w =
    {| Trainer.trace :=
         [Trainer.Print "Plant Disease and Pest Detection Model Training";
          Trainer.Print "==================================================";
          Trainer.Input Trainer.prompt;
          Trainer.Print "Invalid choice!";
          Trainer.Print (Trainer.nl +:+ "Training completed!")];
       Trainer.exit_status := 0;
       Trainer.traceback := None |}.
Proof.
  intros Hin H1 H2 H3 H4. rewrite main_cases, Hin. unfold dispatch.
  apply String.eqb_neq in H1, H2, H3, H4. rewrite H1, H2, H3, H4.
  reflexivity.
Qed.

Lemma X14_witness :
  Trainer.input (bare " 1") Trainer.prompt = inr " 1" ∧
  Trainer.exit_status (Trainer.main (bare " 1")) = 0%Z ∧
  length (Trainer.trace (Trainer.main (bare " 1"))) = 5%nat.
Proof.
  split; [reflexivity|].
  rewrite (X14_invalid_choice (bare " 1") " 1" eq_refl);
    [split; reflexivity | discriminate..].
Defined.

(** X15.  The line "Training completed!" is the last thing a run prints
    exactly when no call raised, whether or not any model was trained; it
    is printed once.  A run in which a call raises ends with status 1 and a
    traceback and never prints it.  With choice "4" and neither dataset in
    place, the missing disease dataset does not stop the run: the pest
    method is entered as well, nothing is trained, and the run still closes
    with "Training completed!" and status 0. *)
Theorem X15_completion_line :
  (∀ w,
     (Trainer.exit_status (Trainer.main w) = 0%Z ∧
      Trainer.traceback (Trainer.main w) = None ∧
      ∃ evs, Trainer.trace (Trainer.main w) = opening ++ evs ++ [completed] ∧
             completed ∉ evs) ∨
     (Trainer.exit_status (Trainer.main w) = 1%Z ∧
      (∃ msg, Trainer.traceback (Trainer.main w) = Some (LibraryError msg)) ∧
      ∃ evs, Trainer.trace (Trainer.main w) = opening ++ evs ∧
             completed ∉ evs)) ∧
  (∀ w,
     Trainer.input w Trainer.prompt = inr "4" →
     Trainer.path_exists w "datasets/plant_disease/train" = false →
     Trainer.path_exists w "datasets/pest/train" = false →
     Trainer.mkdir w "datasets" = inr tt →
     Trainer.main w =
       {| Trainer.trace := opening ++ disease_dataset_missing ++
                           pest_dataset_missing ++ [completed];
          Trainer.exit_status := 0;
          Trainer.traceback := None |} ∧
     existsb touches_model (Trainer.trace (Trainer.main w)) = false).
Proof.
  split.
  - intros w. rewrite main_cases.
    destruct (Trainer.input w Trainer.prompt) as [msg|choice].
    + right. simpl. split; [done|]. split; [by exists msg|].
      exists []. split; [reflexivity | apply not_elem_of_nil].
    + destruct (orderly_dispatch w choice opening) as (evs & Htr & Hno & Hexn).
      destruct (dispatch w choice opening) as [tr [[]|e]]; simpl in *; subst tr.
      * left. split; [done|]. split; [done|]. exists evs.
        split; [reflexivity | done].
      * right. split; [done|]. destruct (Hexn e eq_refl) as [msg ->].
        split; [by exists msg|]. by exists evs.
  - intros w Hin Hd Hp Hmk.
    assert (Trainer.main w =
       {| Trainer.trace := opening ++ disease_dataset_missing ++
                           pest_dataset_missing ++ [completed];
          Trainer.exit_status := 0;
          Trainer.traceback := None |}) as Hmain.
    { rewrite main_cases, Hin.
      change (dispatch w "4") with
        (Trainer.bind (Trainer.train_disease_model w Trainer.new)
           (λ _, Trainer.bind (Trainer.train_pest_model w Trainer.new)
                   (λ _, Trainer.ret tt))).
      unfold Trainer.bind at 1. rewrite (disease_missing_run _ _ _ Hd), Hmk.
      unfold Trainer.bind at 1. rewrite (pest_missing_run _ _ _ Hp), Hmk.
      reflexivity. }
    split; [exact Hmain|]. rewrite Hmain. reflexivity.
Qed.

Lemma X15_witness :
  Trainer.input (bare "4") Trainer.prompt = inr "4" ∧
  Trainer.exit_status (Trainer.main (bare "4")) = 0%Z ∧
  last (Trainer.trace (Trainer.main (bare "4"))) = Some completed.
Proof.
  split; [reflexivity|].
  destruct (proj2 X15_completion_line (bare "4") eq_refl eq_refl eq_refl eq_refl)
    as [Hmain _].
  rewrite Hmain. split; reflexivity.
Defined.

(** ** The dummy models *)

Lemma disease_compose_accepts (self : Disease.DiseasePredictor) (v : list Q) :
  v ≠ [] → (length v ≤ length (Disease.class_names self))%nat →
  ∃ r, Disease.compose self [v] = Ret r.
Proof.
  intros Hv Hlen.
  destruct (np_argmax_first_max v Hv) as (i & p & Hi & Hmax).
  pose proof (first_max_lt_length v i p Hmax) as Hlt.
  destruct Hmax as (Hp & _).
  destruct (lookup_lt_is_Some_2 (Disease.class_names self) i) as [l Hl]; [lia|].
  destruct (disease_compose_at self v i p l Hi Hp Hl) as (r & Hr & _).
  by exists r.
Qed.

Lemma pest_compose_accepts (self : Pest.PestPredictor) (v : list Q) :
  v ≠ [] → (length v ≤ length (Pest.class_names self))%nat →
  ∃ r, Pest.compose self [v] = Ret r.
Proof.
  intros Hv Hlen.
  destruct (np_argmax_first_max v Hv) as (i & p & Hi & Hmax).
  pose proof (first_max_lt_length v i p Hmax) as Hlt.
  destruct Hmax as (Hp & _).
  destruct (lookup_lt_is_Some_2 (Pest.class_names self) i) as [l Hl]; [lia|].
  destruct (pest_compose_at self v i p l Hi Hp Hl) as (r & Hr & _).
  by exists r.
Qed.

(** X16.  [create_dummy_models] builds both networks before it writes
    either, writes the disease model to "disease_model.h5" and then the pest
    model to "pest_model.h5", and reports success only after both are
    written; if writing the first file fails, the second is not attempted.
    The two networks end in softmax layers of 38 and 10 units, the lengths
    of the label lists of the two predictors, so every output vector of a
    dummy model is answered by the corresponding predictor with a response
    and never with an index error. *)
Theorem X16_dummy_models_fit_predictors :
  (∀ w tr,
     Trainer.build w (Trainer.dummy_network 38) = inr tt →
     Trainer.build w (Trainer.dummy_network 10) = inr tt →
     (Trainer.save w (Trainer.dummy_network 38) "disease_model.h5" = inr tt →
      Trainer.save w (Trainer.dummy_network 10) "pest_model.h5" = inr tt →
      Trainer.create_dummy_models w tr =
        (tr ++ [Trainer.Print "Creating dummy models for testing...";
                Trainer.Build (Trainer.dummy_network 38);
                Trainer.Build (Trainer.dummy_network 10);
                Trainer.Save (Trainer.dummy_network 38) "disease_model.h5";
                Trainer.Save (Trainer.dummy_network 10) "pest_model.h5";
                Trainer.Print "Dummy models created successfully!";
                Trainer.Print "disease_model.h5 - 38 classes";
                Trainer.Print "pest_model.h5 - 10 classes"],
         Ret tt)) ∧
     (∀ msg,
      Trainer.save w (Trainer.dummy_network 38) "disease_model.h5" = inl msg →
      Trainer.create_dummy_models w tr =
        (tr ++ [Trainer.Print "Creating dummy models for testing...";
                Trainer.Build (Trainer.dummy_network 38);
                Trainer.Build (Trainer.dummy_network 10);
                Trainer.Save (Trainer.dummy_network 38) "disease_model.h5"],
         Raise (LibraryError msg)))) ∧
  output_units (Trainer.dummy_network 38) =
    Some (length Disease.class_names_literal) ∧
  output_units (Trainer.dummy_network 10) =
    Some (length Pest.class_names_literal) ∧
  (∀ path (v : list Q),
     output_units (Trainer.dummy_network 38) = Some (length v) →
     ∃ r, Disease.compose (Disease.new path) [v] = Ret r) ∧
  (∀ path (v : list Q),
     output_units (Trainer.dummy_network 10) = Some (length v) →
     ∃ r, Pest.compose (Pest.new path) [v] = Ret r).
Proof.
  split; [|split; [reflexivity|split; [reflexivity|split]]].
  - intros w tr Hb1 Hb2.
    unfold Trainer.create_dummy_models. cbv zeta.
    rewrite bind_print, bind_perform, Hb1, bind_perform, Hb2, bind_perform.
    split.
    + intros Hs1 Hs2. rewrite Hs1, bind_perform, Hs2, !bind_print.
      unfold Trainer.print, Trainer.perform. simpl.
      rewrite <- !app_assoc. reflexivity.
    + intros msg Hs1. rewrite Hs1. rewrite <- !app_assoc. reflexivity.
  - intros path v [= Hlen]. apply disease_compose_accepts.
    + destruct v; [discriminate|done].
    + simpl. lia.
  - intros path v [= Hlen]. apply pest_compose_accepts.
    + destruct v; [discriminate|done].
    + simpl. lia.
Qed.

Lemma X16_witness :
  Trainer.build workshop (Trainer.dummy_network 38) = inr tt ∧
  Trainer.save workshop (Trainer.dummy_network 38) "disease_model.h5" = inr tt ∧
  snd (Trainer.create_dummy_models workshop []) = Ret tt ∧
  length (fst (Trainer.create_dummy_models workshop [])) = 8%nat.
Proof.
  split; [reflexivity|]. split; [reflexivity|].
  rewrite (proj1 (proj1 X16_dummy_models_fit_predictors workshop []
                    eq_refl eq_refl) eq_refl eq_refl).
  split; reflexivity.
Defined.

(** ** A completed training *)

(** X17.  When the disease dataset is in place and every call succeeds,
    [train_disease_model] asks for the training and the validation
    iterator, prints the number of classes, builds one network, fits that
    network and returns it with the history of the fit.  The last layer of
    the network has as many units as the training iterator has classes.  The
    fit is asked for [samples // 32] steps per epoch, so it never asks for
    more full batches than there are images, leaves fewer than 32 images of
    an epoch unscheduled, and asks for zero steps when there are fewer than
    32 training images.  When the dataset has between 1 and 38 classes,
    every output vector of the network is answered by the disease predictor
    with a response. *)
Theorem X17_completed_training (w : Trainer.Env) (tr : list Trainer.event)
    (train_gen val_gen : Trainer.Generator) (history : Trainer.History) :
  let self := Trainer.new in
  let data_dir := "datasets/plant_disease/train" in
  let num_classes := length (Trainer.class_indices train_gen) in
  let net :=
    {| Trainer.inputs := Some (224, 224, 3)%nat;
       Trainer.layers :=
         [Trainer.MobileNetV2 (224, 224, 3)%nat false "imagenet" false false;
          Trainer.GlobalAveragePooling2D; Trainer.Dropout 0.3;
          Trainer.Dense 512 "relu"; Trainer.Dropout 0.3;
          Trainer.Dense num_classes "softmax"];
       Trainer.optimizer_ := Trainer.Adam 0.001;
       Trainer.loss := "categorical_crossentropy";
       Trainer.metrics := ["accuracy"] |} in
  let steps := (Trainer.samples train_gen / 32)%nat in
  let args := [("steps_per_epoch", Trainer.KNat steps);
               ("epochs", Trainer.KNat 50);
               ("validation_steps",
                Trainer.KNat (Trainer.samples val_gen / 32));
               ("verbose", Trainer.KNat 1)] in
  Trainer.path_exists w data_dir = true →
  Trainer.flow_from_directory w Trainer.train_datagen data_dir
    (Trainer.flow_args self "training" true) = inr train_gen →
  Trainer.flow_from_directory w Trainer.val_datagen data_dir
    (Trainer.flow_args self "validation" false) = inr val_gen →
  Trainer.build w net = inr tt →
  Trainer.fit w net train_gen val_gen args
    (Trainer.callbacks_for "disease_model.h5") = inr history →
  Trainer.train_disease_model w self tr =
    (tr ++ [Trainer.Print "Training Disease Detection Model...";
            Trainer.FlowFromDirectory Trainer.train_datagen data_dir
              (Trainer.flow_args self "training" true);
            Trainer.FlowFromDirectory Trainer.val_datagen data_dir
              (Trainer.flow_args self "validation" false);
            Trainer.Print ("Number of classes: " +:+ Trainer.str_of_nat num_classes);
            Trainer.PrintClassIndices (Trainer.class_indices train_gen);
            Trainer.Build net;
            Trainer.Fit net train_gen val_gen args
              (Trainer.callbacks_for "disease_model.h5");
            Trainer.Print "Disease model training completed!"],
     Ret (Some (net, history))) ∧
  output_units net = Some num_classes ∧
  (steps * 32 ≤ Trainer.samples train_gen)%nat ∧
  (Trainer.samples train_gen < steps * 32 + 32)%nat ∧
  ((Trainer.samples train_gen < 32)%nat → steps = 0%nat) ∧
  (∀ path (v : list Q),
     length v = num_classes → (1 ≤ num_classes ≤ 38)%nat →
     ∃ r, Disease.compose (Disease.new path) [v] = Ret r).
Proof.
  intros self data_dir num_classes net steps args Hex Htrain Hval Hbuild Hfit.
  split; [|split; [reflexivity|split; [|split; [|split]]]].
  - subst self data_dir num_classes net steps args.
    unfold Trainer.train_disease_model, Trainer.prepare_data_generators,
      Trainer.create_model, Trainer.bind, Trainer.print, Trainer.perform,
      Trainer.ret, Trainer.fit_args in *.
    rewrite Hex. cbn [negb]. cbv zeta. rewrite Htrain. cbn [call].
    rewrite Hval. cbn [call]. cbn [Trainer.img_height Trainer.img_width
      Trainer.batch_size Trainer.epochs Trainer.new] in *.
    rewrite Hbuild. cbn [call]. rewrite Hfit. cbn [call].
    rewrite <- !app_assoc. reflexivity.
  - subst steps. pose proof (Nat.Div0.mul_div_le (Trainer.samples train_gen) 32).
    lia.
  - subst steps.
    pose proof (Nat.mul_succ_div_gt (Trainer.samples train_gen) 32). lia.
  - intros Hlt. subst steps. by apply Nat.div_small.
  - intros path v Hlen Hrange. apply disease_compose_accepts.
    + destruct v; [simpl in Hlen; lia | done].
    + simpl. lia.
Qed.

Lemma X17_witness :
  Trainer.path_exists lab "datasets/plant_disease/train" = true ∧
  ∃ net history,
    snd (Trainer.train_disease_model lab Trainer.new []) =
      Ret (Some (net, history)) ∧
    output_units net = Some 3%nat.
Proof.
  split; [reflexivity|].
  destruct (X17_completed_training lab []
              {| Trainer.samples := 70;
                 Trainer.class_indices :=
                   [("blight", 0); ("healthy", 1); ("rust", 2)]%nat |}
              {| Trainer.samples := 17;
                 Trainer.class_indices :=
                   [("blight", 0); ("healthy", 1); ("rust", 2)]%nat |}
              [("loss", [0.9; 0.5]%Q)]
              eq_refl eq_refl eq_refl eq_refl eq_refl)
    as (Hrun & Hunits & _).
  eexists _, _. rewrite Hrun. split; [reflexivity | exact Hunits].
Defined.
